(** * Python_Graphing: trend analyzers and the moving-average smoother

    A shallow embedding of the four scripts of the repository
    ([time_series_plot.py], [log_trend_analyzer.py], [csv_trend_analyzer.py],
    [json_trend_analyzer.py]) and the properties of their parsing,
    loading, filtering and smoothing code.

    Conventions.
    - Python exceptions are values of [exn]; a call that may raise returns
      [result A].
    - A Python [str] is a [string] whose characters are the code points
      below 256.
    - The smoother is modelled twice. [Smoothing] follows the code over
      any arithmetic: the number type, the division that makes the kernel
      and the dot-product routine of [numpy.correlate] are parameters, so
      its theorems hold of IEEE doubles whatever the order in which the
      routine adds the products. [Doubles] is that model at the binary64
      floats of Rocq, and [TimeSeries] is it at the exact rationals
      ([Qc]), where no rounding occurs ([ExactProps.moving_average_exact]).
    - Library calls ([np.convolve], [re.split], [str.strip], [str.split],
      the regular expression [LOG_PATTERN]) are modelled from their
      documented behaviour.
    - [float] and [pd.to_datetime] are parameters of the functions that
      call them, so the theorems hold whatever they return; the closed
      examples use [PyFloat.py_float], a model of [float] on decimal
      literals, infinities and NaN, and [Samples.sample_to_datetime].
    - Figures are not modelled, and the statistics of a column are kept
      as symbols; a run is described by the lines its own statements
      print and by the exception its own checks raise. An error raised
      inside the library while a statistic is computed on a column that
      is not numeric, or while a figure is drawn, is therefore outside
      the model: a result [Ok out] tells what the script prints if the
      library calls return. [Drawing] tells at which point a plotting
      function hands over to the drawing calls, and with which rows. *)

From Stdlib Require Import ZArith QArith Qcanon List String Ascii Lia Bool.
From Stdlib Require Floats Uint63.
From stdpp Require Import base option list strings gmap sorting.
Import ListNotations.

Local Open Scope Z_scope.
Local Open Scope string_scope.

(** ** Exceptions and results *)

Inductive exn : Type :=
| ValueError (msg : string)
| SystemExit (msg : string)
| KeyError (key : string).

Inductive result (A : Type) : Type :=
| Ok (a : A)
| Raise (e : exn).
Arguments Ok {A} a.
Arguments Raise {A} e.

#[export] Instance result_ret : MRet result := fun A a => Ok a.
#[export] Instance result_bind : MBind result := fun A B k r =>
  match r with
  | Ok a => k a
  | Raise e => Raise e
  end.

(** The error conditions of the specification, as the exceptions by which
    the scripts signal them. *)
Definition InvalidArgument (e : exn) : Prop :=
  e = ValueError "window_size must be >= 1".

Definition MissingColumn (e : exn) : Prop :=
  e = ValueError "CSV must contain a 'timestamp' column" \/
  e = ValueError "JSON must contain a 'timestamp' field" \/
  e = SystemExit "No 'instrument_id' column in data to filter on.".

Definition EmptyDataset (e : exn) : Prop :=
  e = ValueError "No valid log lines parsed." \/
  e = SystemExit "No data after filtering. Check instrument_id." \/
  e = SystemExit "No data after filtering. Check metric/instrument names." \/
  e = SystemExit "No data after filtering. Check instrument_id or file content.".

Definition UnknownMetric (e : exn) : Prop :=
  exists metric, e = ValueError ("Metric '" ++ metric ++ "' not found in data").

(** ** time_series_plot.py over exact rationals *)

Module TimeSeries.

Local Open Scope Qc_scope.

Definition Qc_of_Z (z : Z) : Qc := Q2Qc (inject_Z z).

(** [np.ones(n)] for an integer [n >= 0]. *)
Definition np_ones (n : Z) : list Qc := repeat 1 (Z.to_nat n).

(** [a[i]] when [i] is a valid index of [a], the phantom sample [0]
    otherwise. *)
Definition sample (a : list Qc) (i : Z) : Qc :=
  if (0 <=? i)%Z && (i <? Z.of_nat (length a))%Z
  then nth (Z.to_nat i) a 0
  else 0.

Definition Qc_sum (l : list Qc) : Qc := fold_right Qcplus 0 l.

(** [numpy.correlate(a, v, mode="same")] for [len(a) >= len(v) >= 1]:
    output [k] is the dot product of [v] with the stretch of [a] that
    starts [len(v) / 2] places left of [k]; places outside [a]
    contribute nothing. *)
Definition np_correlate_same (a v : list Qc) : list Qc :=
  let n_left := Z.of_nat (length v / 2) in
  map (fun k : nat =>
         Qc_sum (map (fun j : nat =>
                        sample a (Z.of_nat k - n_left + Z.of_nat j) * nth j v 0)
                     (seq 0 (length v))))
      (seq 0 (length a)).

(** [numpy.convolve(a, v, mode="same")]: the operands are swapped when
    [v] is the longer one, an empty operand is rejected, and the result
    is the correlation with the reversed second operand. The tests come
    in the order of NumPy 1.x; NumPy 2.x tests for an empty operand
    before it swaps, which changes the operand named in the message of
    an empty [a], and nothing else. *)
Definition np_convolve_same (a v : list Qc) : result (list Qc) :=
  let '(a, v) := if (length a <? length v)%nat then (v, a) else (a, v) in
  if (length a =? 0)%nat then Raise (ValueError "a cannot be empty")
  else if (length v =? 0)%nat then Raise (ValueError "v cannot be empty")
  else Ok (np_correlate_same a (rev v)).

(** [moving_average(x, window_size)]. *)
Definition moving_average (x : list Qc) (window_size : Z) : result (list Qc) :=
  if (window_size <? 1)%Z then Raise (ValueError "window_size must be >= 1")
  else
    let window := map (fun o => o / Qc_of_Z window_size) (np_ones window_size) in
    np_convolve_same x window.

(** The smoother as the specification words it: position [k] of the
    output is the sum of the [W] samples centred on [k] (from
    [k - W/2] to [k - W/2 + W - 1], zeros beyond the ends) divided by
    [W]; one output per input sample. *)
Definition centered_window_sum (x : list Qc) (W : Z) (k : Z) : Qc :=
  Qc_sum (map (fun j : nat => sample x (k - W / 2 + Z.of_nat j))
              (seq 0 (Z.to_nat W))).

Definition zero_padded_mean (x : list Qc) (W : Z) : list Qc :=
  map (fun k : nat => centered_window_sum x W (Z.of_nat k) / Qc_of_Z W)
      (seq 0 (length x)).

End TimeSeries.

(** ** time_series_plot.py over any arithmetic *)

Module Smoothing.

Section Arithmetic.
(** The values of a numeric array, [1.0], the conversion of the integer
    [window_size] and the division of [np.ones(window_size) / window_size]. *)
Variable number : Type.
Variable one : number.
Variable of_int : Z -> number.
Variable divide : number -> number -> number.
(** The routine by which [numpy.correlate] combines, for output [k], a
    stretch of its first operand with the stretch of its second operand
    of the same length: the sum of the products of their entries, added
    in the order and with the rounding of that routine. *)
Variable dot : nat -> list number -> list number -> number.

(** [np.ones(n)] for an integer [n >= 0]. *)
Definition np_ones (n : Z) : list number := repeat one (Z.to_nat n).

(** [a[lo:hi]] for [0 <= lo]. *)
Definition slice (a : list number) (lo hi : nat) : list number :=
  firstn (hi - lo) (skipn lo a).

(** [numpy.correlate(a, v, mode="same")] for [len(a) >= len(v) >= 1]:
    output [k] lays [v] over [a] with [v[0]] at place [k - len(v) / 2],
    and is the [dot] of the entries of [v] that fall on a place of [a]
    with the entries of [a] under them. Entries of [v] that fall outside
    [a] take no part (nothing is multiplied by a padding zero). *)
Definition np_correlate_same (a v : list number) : list number :=
  let n1 := length a in
  let n2 := length v in
  let n_left := (n2 / 2)%nat in
  map (fun k : nat =>
         let first := (n_left - k)%nat in
         let last := Nat.min n2 (n1 + n_left - k) in
         dot k (slice a (k + first - n_left) (k + last - n_left))
               (slice v first last))
      (seq 0 n1).

(** [numpy.convolve(a, v, mode="same")], as in [TimeSeries]. *)
Definition np_convolve_same (a v : list number) : result (list number) :=
  let '(a, v) := if (length a <? length v)%nat then (v, a) else (a, v) in
  if (length a =? 0)%nat then Raise (ValueError "a cannot be empty")
  else if (length v =? 0)%nat then Raise (ValueError "v cannot be empty")
  else Ok (np_correlate_same a (rev v)).

(** [moving_average(x, window_size)]. *)
Definition moving_average (x : list number) (window_size : Z)
  : result (list number) :=
  if (window_size <? 1)%Z then Raise (ValueError "window_size must be >= 1")
  else
    let window := map (fun o => divide o (of_int window_size))
                      (np_ones window_size) in
    np_convolve_same x window.

(** The smoother as the specification words it. The sample at position
    [i], if the sequence has one; the samples under the window of [W]
    positions centred on [k] (positions [k - W/2] to [k - W/2 + W - 1],
    those beyond the ends of the sequence left out); and the sequence
    whose value at [k] combines the samples under the window with as
    many kernel entries [1/W]. *)
Definition sample_at (x : list number) (i : Z) : list number :=
  if (0 <=? i)%Z then option_list (x !! Z.to_nat i) else [].

Definition window_samples (x : list number) (W : Z) (k : Z) : list number :=
  flat_map (fun j : nat => sample_at x (k - W / 2 + Z.of_nat j))
           (seq 0 (Z.to_nat W)).

Definition windowed_dots (x : list number) (W : Z) : list number :=
  map (fun k : nat =>
         let samples := window_samples x W (Z.of_nat k) in
         dot k samples (repeat (divide one (of_int W)) (length samples)))
      (seq 0 (length x)).

End Arithmetic.

Arguments slice {number} a lo hi.
Arguments sample_at {number} x i.
Arguments window_samples {number} x W k.

(** The dot product of exact rationals. *)
Definition exact_dot (a v : list Qc) : Qc :=
  TimeSeries.Qc_sum (zip_with Qcmult a v).

End Smoothing.

(** ** time_series_plot.py over IEEE doubles *)

Module Doubles.
Import PrimFloat.

(** The double nearest to an integer [0 <= z < 2^63]. *)
Definition of_int (z : Z) : float := of_uint63 (Uint63.of_Z z).

(** A dot-product routine: the products are added from left to right,
    each product and each sum rounded to the nearest double. The routine
    of an installed NumPy may add in another order. *)
Definition sequential_dot (a v : list float) : float :=
  fold_left (fun acc p => add acc (mul (fst p) (snd p))) (combine a v) zero.

Definition moving_average (x : list float) (window_size : Z)
  : result (list float) :=
  Smoothing.moving_average float one of_int div (fun _ => sequential_dot)
    x window_size.

End Doubles.

(** ** Python strings *)

Module PyStr.

(** [c.isspace()] for the code points below 256. *)
Definition is_space (c : ascii) : bool :=
  let n := nat_of_ascii c in
  ((9 <=? n) && (n <=? 13) || (28 <=? n) && (n <=? 32)
   || (n =? 133) || (n =? 160))%nat.

Fixpoint lstrip (s : string) : string :=
  match s with
  | "" => ""
  | String c s' => if is_space c then lstrip s' else s
  end.

Fixpoint rstrip (s : string) : string :=
  match s with
  | "" => ""
  | String c s' =>
      match rstrip s' with
      | "" => if is_space c then "" else String c ""
      | r => String c r
      end
  end.

(** [s.strip()] *)
Definition strip (s : string) : string := rstrip (lstrip s).

(** [c in s] for a one-character [c]. *)
Fixpoint contains (c : ascii) (s : string) : bool :=
  match s with
  | "" => false
  | String d s' => Ascii.eqb c d || contains c s'
  end.

(** [s.split(sep, 1)]: the only piece when [sep] does not occur, else
    the text before the first [sep] and the text after it. *)
Fixpoint split_once (sep : ascii) (s : string) : string * option string :=
  match s with
  | "" => ("", None)
  | String c s' =>
      if Ascii.eqb c sep then ("", Some s')
      else let '(before, after) := split_once sep s' in
           (String c before, after)
  end.

(** The separator class [[ ,]] of the token splitter. *)
Definition is_sep (c : ascii) : bool :=
  Ascii.eqb c " " || Ascii.eqb c ",".

Definition starts_with_sep (s : string) : bool :=
  match s with
  | "" => false
  | String c _ => is_sep c
  end.

(** [re.split(r"[ ,]+", s)]: the pieces between maximal runs of
    separators; a separator run at either end leaves an empty piece. *)
Fixpoint re_split (s : string) : list string :=
  match s with
  | "" => [""]
  | String c s' =>
      let pieces := re_split s' in
      if is_sep c then
        if starts_with_sep s' then pieces else "" :: pieces
      else
        match pieces with
        | piece :: others => String c piece :: others
        | [] => [String c ""]
        end
  end.

(** The longest prefix made of characters that pass [keep], and the
    rest. *)
Fixpoint span (keep : ascii -> bool) (s : string) : string * string :=
  match s with
  | "" => ("", "")
  | String c s' =>
      if keep c then let '(p, r) := span keep s' in (String c p, r)
      else ("", s)
  end.

Definition lower (c : ascii) : ascii :=
  let n := nat_of_ascii c in
  if ((65 <=? n) && (n <=? 90))%nat then ascii_of_nat (n + 32) else c.

Fixpoint lowercase (s : string) : string :=
  match s with
  | "" => ""
  | String c s' => String (lower c) (lowercase s')
  end.

End PyStr.

(** ** Python floats read from text *)

Module PyFloat.
Import PyStr.

(** A float as [float(s)] denotes it: the exact decimal value of a
    finite literal, an infinity, or not-a-number. *)
Inductive pyfloat : Type :=
| Finite (q : Qc)
| Infinite (negative : bool)
| NotANumber.

Definition digit_of (c : ascii) : option Z :=
  let n := nat_of_ascii c in
  if ((48 <=? n) && (n <=? 57))%nat then Some (Z.of_nat (n - 48)) else None.

(** [(["_"] digit)*] *)
Fixpoint more_digits (s : string) : list Z * string :=
  match s with
  | "" => ([], "")
  | String c s' =>
      match digit_of c with
      | Some d => let '(ds, r) := more_digits s' in (d :: ds, r)
      | None =>
          if Ascii.eqb c "_" then
            match s' with
            | String c2 s'' =>
                match digit_of c2 with
                | Some d => let '(ds, r) := more_digits s'' in (d :: ds, r)
                | None => ([], s)
                end
            | "" => ([], s)
            end
          else ([], s)
      end
  end.

(** [digitpart ::= digit (["_"] digit)*] *)
Definition digitpart (s : string) : option (list Z * string) :=
  match s with
  | "" => None
  | String c s' =>
      match digit_of c with
      | Some d => let '(ds, r) := more_digits s' in Some (d :: ds, r)
      | None => None
      end
  end.

(** [number ::= [digitpart] "." digitpart | digitpart ["."]]: the digits
    before the point, the digits after it, and the rest. *)
Definition number (s : string) : option (list Z * list Z * string) :=
  match digitpart s with
  | Some (ip, String "." r) =>
      match digitpart r with
      | Some (fp, r') => Some (ip, fp, r')
      | None => Some (ip, [], r)
      end
  | Some (ip, r) => Some (ip, [], r)
  | None =>
      match s with
      | String "." r =>
          match digitpart r with
          | Some (fp, r') => Some ([], fp, r')
          | None => None
          end
      | _ => None
      end
  end.

(** An optional sign: whether it is a minus, and the rest. *)
Definition sign (s : string) : bool * string :=
  match s with
  | String "+" r => (false, r)
  | String "-" r => (true, r)
  | _ => (false, s)
  end.

(** [exponent ::= ("e" | "E") [sign] digitpart], up to the end of the
    text; no exponent is the exponent [0]. *)
Definition exponent (s : string) : option Z :=
  match s with
  | "" => Some 0%Z
  | String c r =>
      if Ascii.eqb (lower c) "e" then
        let '(neg, r') := sign r in
        match digitpart r' with
        | Some (ds, "") =>
            let e := fold_left (fun acc d => (10 * acc + d)%Z) ds 0%Z in
            Some (if neg then (- e)%Z else e)
        | _ => None
        end
      else None
  end.

Definition pow10 (e : Z) : Qc :=
  if (0 <=? e)%Z then Q2Qc (inject_Z (10 ^ e))
  else (/ Q2Qc (inject_Z (10 ^ (- e))))%Qc.

(** The white space that [float] removes from the ends of its argument:
    the ASCII white space and, of the other code points below 256, the
    two spaces U+0085 and U+00A0. The separators U+001C to U+001F, which
    [str.strip] removes, are kept and make the text unreadable. *)
Definition is_float_space (c : ascii) : bool :=
  let n := nat_of_ascii c in
  ((9 <=? n) && (n <=? 13) || (n =? 32) || (n =? 133) || (n =? 160))%nat.

Fixpoint float_lstrip (s : string) : string :=
  match s with
  | "" => ""
  | String c s' => if is_float_space c then float_lstrip s' else s
  end.

Fixpoint float_rstrip (s : string) : string :=
  match s with
  | "" => ""
  | String c s' =>
      match float_rstrip s' with
      | "" => if is_float_space c then "" else String c ""
      | r => String c r
      end
  end.

(** [float(s)] for a string [s]; [None] stands for [ValueError]. The
    value of a finite literal is its exact decimal value: the rounding
    to the nearest double, and with it the overflow of a large literal
    to an infinity, is not modelled. *)
Definition py_float (s : string) : option pyfloat :=
  let '(neg, body) := sign (float_rstrip (float_lstrip s)) in
  let word := lowercase body in
  if (String.eqb word "inf" || String.eqb word "infinity")%bool
  then Some (Infinite neg)
  else if String.eqb word "nan" then Some NotANumber
  else
    match number body with
    | Some (ip, fp, r) =>
        match exponent r with
        | Some e =>
            let m := fold_left (fun acc d => (10 * acc + d)%Z) (ip ++ fp) 0%Z in
            let q := (Q2Qc (inject_Z m) * pow10 (e - Z.of_nat (length fp)))%Qc in
            Some (Finite (if neg then (- q)%Qc else q))
        | None => None
        end
    | None => None
    end.

End PyFloat.

(** ** Data frames *)

Module Frame.
Export PyFloat.

(** A value held in a record or a data frame cell. [CNull] stands for
    [None], a missing entry and [NaT]. *)
Inductive cell : Type :=
| CStr (s : string)
| CFloat (f : pyfloat)
| CTime (t : Z)
| CNull.

(** [pd.isna]: [None], [NaN] and [NaT] are null. *)
Definition isna (c : cell) : bool :=
  match c with
  | CNull | CFloat NotANumber => true
  | _ => false
  end.

(** A record is a Python [dict] from field names to values; a data frame
    has its column labels and its rows, a row holding [CNull] at a column
    it does not mention. *)
Record DataFrame : Type := {
  columns : gset string;
  rows : list (gmap string cell)
}.

(** [pd.DataFrame(records)] for a list of dicts: the columns are the keys
    that occur. *)
Definition of_records (records : list (gmap string cell)) : DataFrame :=
  {| columns := ⋃ (dom <$> records); rows := records |}.

(** [name in df.columns] *)
Definition has_column (df : DataFrame) (name : string) : bool :=
  bool_decide (name ∈ columns df).

(** [df.empty]: no rows or no columns. *)
Definition empty (df : DataFrame) : bool :=
  match rows df with
  | [] => true
  | _ :: _ => bool_decide (columns df = ∅)
  end.

Definition get (name : string) (row : gmap string cell) : cell :=
  default CNull (row !! name).

(** [df[name]] as the list of its values. *)
Definition column (df : DataFrame) (name : string) : list cell :=
  get name <$> rows df.

(** [df[name].dropna()] *)
Definition column_dropna (df : DataFrame) (name : string) : list cell :=
  filter (fun c => isna c = false) (column df name).

(** [df.dropna(subset=[name])] *)
Definition dropna (name : string) (df : DataFrame) : DataFrame :=
  {| columns := columns df;
     rows := filter (fun row => isna (get name row) = false) (rows df) |}.

(** [c == value] for a string [value]. *)
Definition eq_str (value : string) (c : cell) : bool :=
  match c with
  | CStr s => String.eqb s value
  | _ => false
  end.

(** [df[df[name] == value]] for a string [value]. *)
Definition select_eq (name value : string) (df : DataFrame) : DataFrame :=
  {| columns := columns df;
     rows := filter (fun row => eq_str value (get name row) = true) (rows df) |}.

(** [df[df[name].isin(values)]] for strings [values]. *)
Definition select_isin (name : string) (values : list string) (df : DataFrame)
  : DataFrame :=
  {| columns := columns df;
     rows := filter (fun row =>
                       existsb (fun v => eq_str v (get name row)) values = true)
                    (rows df) |}.

Section Timestamps.
(** [pd.to_datetime(values, errors="coerce")] on the values of a
    column: a time (in nanoseconds) where the value reads as a
    date-time, [None] (for [NaT]) where it does not. *)
Variable to_datetime : list cell -> list (option Z).

Definition time_cell (t : option Z) : cell :=
  match t with
  | Some t => CTime t
  | None => CNull
  end.

(** [df["timestamp"] = pd.to_datetime(df["timestamp"], errors="coerce")] *)
Definition coerce_timestamp (df : DataFrame) : DataFrame :=
  {| columns := columns df ∪ {["timestamp"]};
     rows := zip_with (fun row t => <["timestamp" := time_cell t]> row)
                      (rows df) (to_datetime (column df "timestamp")) |}.

(** The two statements every loader ends with: coerce the timestamps,
    then drop the rows whose timestamp is [NaT]. *)
Definition normalize_timestamp (df : DataFrame) : DataFrame :=
  dropna "timestamp" (coerce_timestamp df).
End Timestamps.

(** What a script prints: a line of text, a statistic of a series
    formatted after a label, or the value counts of a series. *)
Inductive statistic : Type := Count | Mean | Std | Min | Max.

Inductive printed : Type :=
| Text (line : string)
| Stat (label : string) (st : statistic) (series : list cell)
| ValueCounts (series : list cell).

(** The truth value of an optional command-line string: [None] and the
    empty string are false. *)
Definition truthy (arg : option string) : bool :=
  match arg with
  | Some (String _ _) => true
  | _ => false
  end.

End Frame.

(** ** log_trend_analyzer.py *)

Module LogTrend.
Import PyStr.
Export Frame.

(** The named groups of a match of [LOG_PATTERN]. *)
Record groupdict : Type := {
  timestamp : string;
  level : string;
  instrument_id : string;
  message : string
}.

Definition newline : ascii := "010"%char.
Definition not_comma (c : ascii) : bool := negb (Ascii.eqb c ",").
Definition not_newline (c : ascii) : bool := negb (Ascii.eqb c newline).

(** [[^,]+,]: a non-empty run of characters other than commas, then a
    comma; the run and what follows the comma. *)
Definition field (s : string) : option (string * string) :=
  match span not_comma s with
  | (String c f, String "," r) => Some (String c f, r)
  | _ => None
  end.

(** [(.+)$]: a non-empty run of characters other than newlines, up to
    the end of the text or to a newline that ends it. *)
Definition rest_of_line (s : string) : option string :=
  match span not_newline s with
  | (String c m, "") => Some (String c m)
  | (String c m, String _ "") => Some (String c m)
  | _ => None
  end.

(** [LOG_PATTERN.match(line)], then [m.groupdict()]. *)
Definition LOG_PATTERN_match (line : string) : option groupdict :=
  '(ts, r1) ← field line;
  '(lv, r2) ← field r1;
  '(id, r3) ← field r2;
  msg ← rest_of_line r3;
  Some {| timestamp := ts; level := lv; instrument_id := id; message := msg |}.

Section Parser.
(** The built-in [float] applied to a string, [None] when it raises
    [ValueError]. *)
Variable float : string -> option pyfloat.

(** The body of the loop of [parse_message]: one token applied to the
    dict built so far. *)
Definition parse_token (result : gmap string (option pyfloat)) (token : string)
  : gmap string (option pyfloat) :=
  if contains "=" token then
    match split_once "=" token with
    | (key, Some value_str) => <[key := float value_str]> result
    | (_, None) => result
    end
  else result.

(** [parse_message(message)] *)
Definition parse_message (message : string) : gmap string (option pyfloat) :=
  if negb (contains "=" message) then ∅
  else fold_left parse_token (re_split (strip message)) ∅.

Definition float_cell (v : option pyfloat) : cell :=
  match v with
  | Some f => CFloat f
  | None => CNull
  end.

(** The record built from the groups of a matching line: the four base
    fields, then [record.update(msg_fields)]. *)
Definition make_record (data : groupdict) : gmap string cell :=
  let msg_fields := parse_message (message data) in
  let record : gmap string cell :=
    {[ "timestamp" := CStr (timestamp data);
       "level" := CStr (level data);
       "instrument_id" := CStr (instrument_id data);
       "message" := CStr (message data) ]} in
  (float_cell <$> msg_fields) ∪ record.

(** One turn of the reading loop of [load_log]: the record appended for
    the line, if any. *)
Definition parse_line (line : string) : option (gmap string cell) :=
  let line := strip line in
  match line with
  | "" => None
  | _ =>
      match LOG_PATTERN_match line with
      | None => None
      | Some data => Some (make_record data)
      end
  end.

(** The reading loop of [load_log] over the lines of the file. *)
Fixpoint read_records (f : list string) : list (gmap string cell) :=
  match f with
  | [] => []
  | line :: f' =>
      match parse_line line with
      | Some record => record :: read_records f'
      | None => read_records f'
      end
  end.

Variable to_datetime : list cell -> list (option Z).

(** [load_log(path)], the file given by its lines. *)
Definition load_log (path : list string) : result DataFrame :=
  let df := of_records (read_records path) in
  if empty df then Raise (ValueError "No valid log lines parsed.")
  else Ok (normalize_timestamp to_datetime df).

(** What [plot_metric] prints. When it prints nothing it goes on to
    the drawing calls, which are not modelled and may raise
    ([Drawing.plot_metric_step]). *)
Definition plot_metric (df : DataFrame) (metric : string) : list printed :=
  if negb (has_column df metric) then
    [Text ("Metric '" ++ metric ++ "' not found in parsed logs; skipping metric plot.")]
  else if empty (dropna metric df) then
    [Text ("No valid values for metric '" ++ metric ++ "'.")]
  else [].

(** What [plot_error_counts] prints. When it prints nothing it goes on
    to the drawing calls, which are not modelled and may raise. *)
Definition plot_error_counts (df : DataFrame) : list printed :=
  if empty (select_isin "level" ["WARN"; "ERROR"] df) then
    [Text "No WARN/ERROR entries found in logs."]
  else [].

(** [main()] with the parsed arguments [log_file], [--metric] and
    [--instrument]; the result is what the run prints, if the drawing
    calls of the plotting functions return. Indexing a frame by a label
    it lacks raises [KeyError]. *)
Definition main (log_file : list string) (metric instrument : option string)
  : result (list printed) :=
  df ← load_log log_file;
  df ← (if truthy instrument then
          if has_column df "instrument_id"
          then Ok (select_eq "instrument_id" (default "" instrument) df)
          else Raise (KeyError "instrument_id")
        else Ok df);
  if empty df then
    Raise (SystemExit "No data after filtering. Check instrument_id or file content.")
  else if negb (has_column df "level") then Raise (KeyError "level")
  else
    Ok ([Text "Log levels:"; ValueCounts (column df "level"); Text ""]
        ++ (if truthy metric then plot_metric df (default "" metric) else [])
        ++ plot_error_counts df)%list.
End Parser.

(** The shape [<timestamp>,<level>,<instrument_id>,<message>] as the
    specification words it: three non-empty fields free of commas, each
    followed by a comma, then a non-empty message. *)
Definition four_field_shape (line : string) : Prop :=
  exists ts lv id msg : string,
    line = ts ++ "," ++ lv ++ "," ++ id ++ "," ++ msg /\
    ts <> "" /\ lv <> "" /\ id <> "" /\ msg <> "" /\
    contains "," ts = false /\ contains "," lv = false /\
    contains "," id = false.

(** The key of a token of shape [key=value]. *)
Definition key_of (token : string) : option string :=
  match split_once "=" token with
  | (key, Some _) => Some key
  | (_, None) => None
  end.

Definition base_fields : list string :=
  ["timestamp"; "level"; "instrument_id"; "message"].

End LogTrend.

(** ** csv_trend_analyzer.py *)

Module CsvTrend.
Export Frame.

Section Loader.
Variable to_datetime : list cell -> list (option Z).

(** [load_csv(path)]; the file is given by the frame [pd.read_csv]
    makes of it. *)
Definition load_csv (path : DataFrame) : result DataFrame :=
  let df := path in
  if negb (has_column df "timestamp") then
    Raise (ValueError "CSV must contain a 'timestamp' column")
  else Ok (normalize_timestamp to_datetime df).

(** What [summarize_value] prints. The statistics are kept as symbols:
    what pandas computes, or raises on a column that is not numeric, is
    not modelled. *)
Definition summarize_value (df : DataFrame) : list printed :=
  if negb (has_column df "value") then
    [Text "No 'value' column found; skipping numeric summary."]
  else
    let vals := column_dropna df "value" in
    [Text "Value statistics:";
     Stat "  Count: " Count vals;
     Stat "  Mean:  " Mean vals;
     Stat "  Std:   " Std vals;
     Stat "  Min:   " Min vals;
     Stat "  Max:   " Max vals;
     Text ""].

(** What [summarize_status] prints. *)
Definition summarize_status (df : DataFrame) : list printed :=
  if negb (has_column df "status") then
    [Text "No 'status' column found; skipping status summary."]
  else
    [Text "Status counts:"; ValueCounts (column df "status"); Text ""].

(** [main()] with the parsed arguments [csv_file] and [--instrument];
    the result is what the run prints, if the statistics and the
    drawing calls return (neither is modelled). *)
Definition main (csv_file : DataFrame) (instrument : option string)
  : result (list printed) :=
  df ← load_csv csv_file;
  df ← (if truthy instrument then
          if negb (has_column df "instrument_id") then
            Raise (SystemExit "No 'instrument_id' column in data to filter on.")
          else Ok (select_eq "instrument_id" (default "" instrument) df)
        else Ok df);
  if empty df then
    Raise (SystemExit "No data after filtering. Check instrument_id.")
  else Ok (summarize_value df ++ summarize_status df)%list.
End Loader.

End CsvTrend.

(** ** json_trend_analyzer.py *)

Module JsonTrend.
Export Frame.

Section Loader.
Variable to_datetime : list cell -> list (option Z).

(** [load_json(path)]; the file is given by the list of flat objects
    [json.load] reads from it. *)
Definition load_json (path : list (gmap string cell)) : result DataFrame :=
  let data := path in
  let df := of_records data in
  if negb (has_column df "timestamp") then
    Raise (ValueError "JSON must contain a 'timestamp' field")
  else Ok (normalize_timestamp to_datetime df).

(** [summarize(df, metric)]: what it prints, or the error it raises for
    a metric that is no column. The statistics are kept as symbols: what
    pandas computes, or raises on a column that is not numeric, is not
    modelled. *)
Definition summarize (df : DataFrame) (metric : string) : result (list printed) :=
  if negb (has_column df metric) then
    Raise (ValueError ("Metric '" ++ metric ++ "' not found in data"))
  else
    let series := column_dropna df metric in
    Ok [Text ("Metric: " ++ metric);
        Stat "Count:  " Count series;
        Stat "Mean:   " Mean series;
        Stat "Std:    " Std series;
        Stat "Min:    " Min series;
        Stat "Max:    " Max series;
        Text ""].

(** [main()] with the parsed arguments [json_file], [--metric] and
    [--instrument]; the result is what the run prints, if the
    statistics and the drawing calls return (neither is modelled). *)
Definition main (json_file : list (gmap string cell)) (metric : string)
    (instrument : option string) : result (list printed) :=
  df ← load_json json_file;
  df ← (if truthy instrument then
          if negb (has_column df "instrument_id") then
            Raise (SystemExit "No 'instrument_id' column in data to filter on.")
          else Ok (select_eq "instrument_id" (default "" instrument) df)
        else Ok df);
  if empty df then
    Raise (SystemExit "No data after filtering. Check metric/instrument names.")
  else summarize df metric.
End Loader.

End JsonTrend.

(** ** Further definitions for the log parser *)

Module LogFormat.
Import LogTrend.

(** The text of a log line with the given groups:
    [<timestamp>,<level>,<instrument_id>,<message>]. *)
Definition format_line (data : groupdict) : string :=
  timestamp data ++ "," ++ level data ++ "," ++ instrument_id data ++ ","
  ++ message data.

(** Groups that [LOG_PATTERN] can produce: three non-empty fields without
    commas and a non-empty message without newlines. *)
Definition well_formed (data : groupdict) : Prop :=
  timestamp data <> "" /\ level data <> "" /\ instrument_id data <> "" /\
  message data <> "" /\
  PyStr.contains "," (timestamp data) = false /\
  PyStr.contains "," (level data) = false /\
  PyStr.contains "," (instrument_id data) = false /\
  PyStr.contains newline (message data) = false.

End LogFormat.

(** ** What a loader keeps of its input *)

Module Loaded.
Import Frame.

(** The rows of [df] are records of [input] whose time stamp has become a
    time: no row is added, every row holds a time at [timestamp], and its
    other fields are those of the record it comes from. *)
Definition timestamped_from (input : list (gmap string cell)) (df : DataFrame)
  : Prop :=
  (length (rows df) <= length input)%nat /\
  forall row, row ∈ rows df ->
    exists r t, r ∈ input /\ row !! "timestamp" = Some (CTime t) /\
                forall name, name <> "timestamp" -> row !! name = r !! name.

End Loaded.

(** ** Plotting functions up to their figure *)

Module Drawing.
Import Frame.

(** What a plotting function does before its figure: it returns early,
    having printed some lines, or it fails on a column the frame lacks,
    or it goes on to the drawing calls ([plt.figure], [plt.plot], ...,
    [plt.tight_layout], [plt.show]) with the rows it has selected. The
    drawing calls themselves are outside the model: they may raise. *)
Inductive plot_step : Type :=
| Returns (out : list printed)
| Fails (e : exn)
| Draws (data : DataFrame).

(** [plot_metric(df, metric, title)] up to [plt.figure()]. The rows
    handed to the drawing calls are sorted by time; their order is not
    modelled. *)
Definition plot_metric_step (df : DataFrame) (metric : string) : plot_step :=
  if negb (has_column df metric) then
    Returns [Text ("Metric '" ++ metric
                   ++ "' not found in parsed logs; skipping metric plot.")]
  else if negb (has_column df "timestamp") then Fails (KeyError "timestamp")
  else
    let metric_df := dropna metric df in
    if empty metric_df then
      Returns [Text ("No valid values for metric '" ++ metric ++ "'.")]
    else Draws metric_df.

End Drawing.

(** ** Rolling means of the value and metric plots *)

Module Rolling.
Import TimeSeries.
Local Open Scope Qc_scope.

(** The values of a numeric column, [None] standing for [NaN]. The window
    of [window] rows that ends at row [i]: rows [i - window + 1] to [i],
    fewer at the start of the series. *)
Definition window_at (window : nat) (values : list (option Qc)) (i : nat)
  : list (option Qc) :=
  let start := (i + 1 - window)%nat in
  take (i + 1 - start) (drop start values).

(** The observations of a window: its values that are not [NaN]. *)
Definition observations (w : list (option Qc)) : list Qc := omap id w.

(** The mean of the observations when there are at least [min_periods]
    of them (and at least one), [NaN] otherwise. The mean is the exact
    one: pandas computes it in doubles from a running sum, so its value
    is met up to rounding only; whether a row is [NaN] does not depend
    on rounding. *)
Definition mean_at_least (min_periods : nat) (obs : list Qc) : option Qc :=
  if ((length obs <? min_periods) || (length obs =? 0))%nat then None
  else Some (Qc_sum obs / Qc_of_Z (Z.of_nat (length obs))).

(** [series.rolling(window=window, min_periods=min_periods).mean()] *)
Definition rolling_mean (window min_periods : nat) (values : list (option Qc))
  : list (option Qc) :=
  map (fun i => mean_at_least min_periods (observations (window_at window values i)))
      (seq 0 (length values)).

(** [df["value"].rolling(window=5, min_periods=1).mean()] of
    [plot_value_trend], and the same call on the metric in
    [plot_time_series]. *)
Definition value_rolling_mean (values : list (option Qc)) : list (option Qc) :=
  rolling_mean 5 1 values.

End Rolling.

(** ** Failures per day *)

Module Failures.
Import Frame.

Definition day_ns : Z := 86400000000000.

(** [t.date()] for a time in nanoseconds, as the number of the day since
    the epoch. *)
Definition date_of (t : Z) : Z := t / day_ns.

(** [df["timestamp"].dt.date] on one row; [None] for [NaT]. *)
Definition row_date (row : gmap string cell) : option Z :=
  match get "timestamp" row with
  | CTime t => Some (date_of t)
  | _ => None
  end.

(** [df["status"].ne("PASS")] on one row. *)
Definition is_failure (row : gmap string cell) : bool :=
  negb (eq_str "PASS" (get "status" row)).

(** One more row in the sums of a [groupby]: the entry of [day] grows by
    [n], or is created in its place among the increasing days. *)
Fixpoint add_to_day (day : Z) (n : nat) (sums : list (Z * nat))
  : list (Z * nat) :=
  match sums with
  | [] => [(day, n)]
  | (d, c) :: rest =>
      if (day <? d)%Z then (day, n) :: sums
      else if (day =? d)%Z then (d, (c + n)%nat) :: rest
      else (d, c) :: add_to_day day n rest
  end.

(** One row entering [df.groupby("date")["is_failure"].sum()]: it adds
    its failure (one or none) to the sum of its date; a row without a date
    belongs to no group. *)
Definition group_step (sums : list (Z * nat)) (row : gmap string cell)
  : list (Z * nat) :=
  match row_date row with
  | Some day => add_to_day day (if is_failure row then 1 else 0)%nat sums
  | None => sums
  end.

(** [df.groupby("date")["is_failure"].sum()]: for each date that occurs,
    in increasing order, the number of failures on it. *)
Definition groupby_date_sum (rows : list (gmap string cell)) : list (Z * nat) :=
  fold_left group_step rows [].

(** The series [daily_failures] that [plot_failure_rate_over_time] draws;
    [None] when the frame has no [status] column and nothing is drawn. *)
Definition daily_failures (df : DataFrame) : option (list (Z * nat)) :=
  if negb (has_column df "status") then None
  else Some (groupby_date_sum (rows df)).



End Failures.

(** ** Sample data *)

Module Samples.
Export Frame.

(** The time (nanoseconds since the epoch) of the sample time stamps of
    the scripts' documentation. *)
Definition sample_time (s : string) : option Z :=
  if String.eqb s "2025-02-01 10:00:01" then Some 1738404001000000000%Z
  else if String.eqb s "2025-02-01 10:05:02" then Some 1738404302000000000%Z
  else if String.eqb s "2025-02-01T10:00:01" then Some 1738404001000000000%Z
  else None.

(** [pd.to_datetime(values, errors="coerce")] on the columns of the
    examples of this file, whose values are the sample time stamps, null,
    or text that is no date-time (such as ["not-a-date"]). *)
Definition sample_to_datetime (values : list cell) : list (option Z) :=
  (fun c => match c with CStr s => sample_time s | _ => None end) <$> values.

(** A line that is not of the four-field shape, and one that is. *)
Definition free_text_line : string := "2025-02-01 10:10:15 ERROR pump_stall".
Definition pressure_line : string :=
  "2025-02-01 10:00:01,INFO,IVD-001,pressure_kpa=101.3".

(** Lines whose message has a value that is no float, a key given twice,
    and a key that is the name of a base field. *)
Definition unparsable_line : string :=
  "2025-02-01 10:00:01,INFO,IVD-001,pressure_kpa=high".
Definition duplicate_key_line : string :=
  "2025-02-01 10:00:01,INFO,IVD-001,a=x a=1".
Definition timestamp_key_line : string :=
  "2025-02-01 10:00:01,INFO,IVD-001,timestamp=xyz".

Definition bad_timestamp_line : string := "not-a-date,INFO,IVD-001,pump_stall".

(** The example file of [csv_trend_analyzer.py] as [pd.read_csv] reads
    it, the same file with its header line only, and a file without an
    [instrument_id] column. *)
Definition csv_columns : gset string :=
  {["timestamp"; "instrument_id"; "status"; "value"]}.

Definition sample_csv : DataFrame :=
  {| columns := csv_columns;
     rows := [ {[ "timestamp" := CStr "2025-02-01 10:00:01";
                  "instrument_id" := CStr "IVD-001";
                  "status" := CStr "PASS";
                  "value" := CFloat (Finite (Q2Qc 101.3)) ]};
               {[ "timestamp" := CStr "2025-02-01 10:05:02";
                  "instrument_id" := CStr "IVD-001";
                  "status" := CStr "FAIL";
                  "value" := CFloat (Finite (Q2Qc 98.1)) ]} ] |}.

Definition header_only_csv : DataFrame :=
  {| columns := csv_columns; rows := [] |}.

Definition header_only_csv_without_instrument : DataFrame :=
  {| columns := {["timestamp"; "value"]}; rows := [] |}.

Definition csv_without_value : DataFrame :=
  {| columns := {["timestamp"; "instrument_id"; "status"]};
     rows := [ {[ "timestamp" := CStr "2025-02-01 10:00:01";
                  "instrument_id" := CStr "IVD-001";
                  "status" := CStr "PASS" ]} ] |}.

Definition csv_without_instrument : DataFrame :=
  {| columns := {["timestamp"; "value"]};
     rows := [ {[ "timestamp" := CStr "2025-02-01 10:00:01";
                  "value" := CFloat (Finite (Q2Qc 101.3)) ]} ] |}.

(** The example object of [json_trend_analyzer.py], and the same object
    with a null time stamp. *)
Definition sample_json : list (gmap string cell) :=
  [ {[ "timestamp" := CStr "2025-02-01T10:00:01";
       "instrument_id" := CStr "IVD-001";
       "metric" := CStr "pressure_kpa";
       "value" := CFloat (Finite (Q2Qc 101.3)) ]} ].

Definition json_null_timestamp : list (gmap string cell) :=
  [ {[ "timestamp" := CNull;
       "instrument_id" := CStr "IVD-001";
       "metric" := CStr "pressure_kpa";
       "value" := CFloat (Finite (Q2Qc 101.3)) ]} ].

(** A flat signal of nine samples [7.0]. *)
Definition flat_signal : list PrimFloat.float := repeat (Doubles.of_int 7) 9.

Definition groups_of (msg : string) : LogTrend.groupdict :=
  {| LogTrend.timestamp := "2025-02-01 10:00:01";
     LogTrend.level := "INFO";
     LogTrend.instrument_id := "IVD-001";
     LogTrend.message := msg |}.

End Samples.

(** * Properties *)

Module PyStrProps.
Import PyStr.

Lemma span_app_stop (keep : ascii -> bool) (p : string) (c : ascii) (r : string) :
  (forall d, contains d p = true -> keep d = true) -> keep c = false ->
  span keep (p ++ String c r) = (p, String c r).
Proof.
  intros Hp Hc. induction p as [|d p IH]; simpl.
  - by rewrite Hc.
  - rewrite (Hp d) by (simpl; by rewrite Ascii.eqb_refl).
    rewrite IH; [done|]. intros e He. apply Hp. simpl. rewrite He.
    by destruct (Ascii.eqb e d).
Qed.

Lemma span_all (keep : ascii -> bool) (p : string) :
  (forall d, contains d p = true -> keep d = true) ->
  span keep p = (p, "").
Proof.
  intros Hp. induction p as [|d p IH]; simpl; [done|].
  rewrite (Hp d) by (simpl; by rewrite Ascii.eqb_refl).
  rewrite IH; [done|]. intros e He. apply Hp. simpl. rewrite He.
  by destruct (Ascii.eqb e d).
Qed.

Lemma span_spec (keep : ascii -> bool) (s p r : string) :
  span keep s = (p, r) ->
  s = p ++ r /\
  (forall d, contains d p = true -> keep d = true) /\
  match r with String c _ => keep c = false | "" => True end.
Proof.
  revert p r. induction s as [|c s IH]; intros p r; simpl.
  - intros [= <- <-]. by repeat split.
  - destruct (keep c) eqn:Hc.
    + destruct (span keep s) as [p' r'] eqn:Hs. intros [= <- <-].
      destruct (IH p' r' eq_refl) as (-> & Hp & Hr).
      repeat split; [|done].
      intros d. simpl. destruct (Ascii.eqb_spec d c) as [->|_]; [done|].
      simpl. apply Hp.
    + intros [= <- <-]. by repeat split.
Qed.

Lemma append_empty_r (s : string) : s ++ "" = s.
Proof.
  induction s as [|a t IH]; [done|].
  change (String a (t ++ "") = String a t). by rewrite IH.
Qed.

Lemma contains_app (c : ascii) (s t : string) :
  contains c (s ++ t) = contains c s || contains c t.
Proof.
  induction s as [|d s IH]; simpl; [done|].
  by rewrite IH, orb_assoc.
Qed.

Lemma contains_lstrip (c : ascii) (s : string) :
  contains c (lstrip s) = true -> contains c s = true.
Proof.
  induction s as [|d s IH]; simpl; [done|].
  destruct (is_space d); simpl.
  - intros H. rewrite (IH H). apply orb_true_r.
  - done.
Qed.

Lemma contains_rstrip (c : ascii) (s : string) :
  contains c (rstrip s) = true -> contains c s = true.
Proof.
  induction s as [|d s IH]; simpl; [done|].
  destruct (rstrip s) as [|e r] eqn:Hr.
  - destruct (is_space d); simpl; [done|].
    rewrite orb_false_r. intros ->. done.
  - simpl in *. destruct (Ascii.eqb c d); [done|]. simpl. exact IH.
Qed.

Lemma contains_strip (c : ascii) (s : string) :
  contains c (strip s) = true -> contains c s = true.
Proof. intros H. by apply contains_lstrip, contains_rstrip. Qed.

(** [sep in s] holds exactly when [s.split(sep, 1)] has two pieces. *)
Lemma contains_split_once (sep : ascii) (s : string) :
  contains sep s = true <-> exists k v, split_once sep s = (k, Some v).
Proof.
  induction s as [|c s IH]; simpl.
  - split; [done | by intros (k & v & [=])].
  - rewrite (Ascii.eqb_sym sep c).
    destruct (Ascii.eqb c sep); simpl.
    + split; [eauto | done].
    + destruct (split_once sep s) as [k' v'] eqn:Hs. rewrite IH.
      split.
      * intros (k & v & [= -> ->]). eauto.
      * intros (k & v & [= <- ->]). eauto.
Qed.

(** A character of a piece of [re.split] is a character of the text. *)
Lemma contains_re_split (c : ascii) (s tok : string) :
  tok ∈ re_split s -> contains c tok = true -> contains c s = true.
Proof.
  revert tok. induction s as [|d s IH]; intros tok; simpl.
  - intros ->%list_elem_of_singleton. done.
  - destruct (is_sep d).
    + intros Hin Hc. rewrite (IH tok); [apply orb_true_r| |done].
      destruct (starts_with_sep s); [done|].
      apply elem_of_cons in Hin as [->|Hin]; [done|done].
    + destruct (re_split s) as [|piece others] eqn:Hs.
      * intros ->%list_elem_of_singleton. simpl.
        rewrite orb_false_r. by intros ->.
      * intros [->|Hin]%elem_of_cons Hc.
        -- simpl in Hc. destruct (Ascii.eqb c d); [done|]. simpl.
           apply (IH piece); [apply list_elem_of_here | done].
        -- rewrite (IH tok); [apply orb_true_r| |done].
           by apply list_elem_of_further.
Qed.

End PyStrProps.

Module LogTrendProps.
Import PyStr PyStrProps LogTrend.

Lemma not_comma_free (f : string) :
  contains "," f = false <-> (forall d, contains d f = true -> not_comma d = true).
Proof.
  split.
  - intros Hf d Hd. unfold not_comma.
    destruct (Ascii.eqb_spec d ",") as [->|_]; [congruence | done].
  - intros H. destruct (contains "," f) eqn:Hc; [|done].
    by apply H in Hc.
Qed.

Lemma field_spec (s f r : string) :
  field s = Some (f, r) ->
  s = f ++ "," ++ r /\ f <> "" /\ contains "," f = false.
Proof.
  unfold field. destruct (span not_comma s) as [p q] eqn:Hs.
  apply span_spec in Hs as (-> & Hp & _).
  destruct p as [|c p]; [done|].
  destruct q as [|d q]; [done|].
  destruct (Ascii.eqb_spec d ",") as [->|Hd].
  - intros [= <- <-]. repeat split; [done|]. by apply not_comma_free.
  - intros H. exfalso. revert H.
    destruct d as [[] [] [] [] [] [] [] []]; done.
Qed.

Lemma field_complete (f r : string) :
  f <> "" -> contains "," f = false -> field (f ++ "," ++ r) = Some (f, r).
Proof.
  intros Hne Hf. unfold field.
  change (f ++ "," ++ r) with (f ++ String "," r).
  rewrite span_app_stop; [|by apply not_comma_free|done].
  by destruct f.
Qed.

Lemma rest_of_line_spec (s m : string) :
  rest_of_line s = Some m ->
  m <> "" /\ (s = m \/ exists c, s = m ++ String c "").
Proof.
  unfold rest_of_line. destruct (span not_newline s) as [p q] eqn:Hs.
  apply span_spec in Hs as (-> & _ & _).
  destruct p as [|c p]; [done|].
  destruct q as [|d [|e q]]; intros [= <-]; split; try done.
  - left. by rewrite append_empty_r.
  - right. eauto.
Qed.

Lemma rest_of_line_complete (s : string) :
  s <> "" -> contains newline s = false -> rest_of_line s = Some s.
Proof.
  intros Hne Hs. unfold rest_of_line. rewrite span_all.
  - by destruct s.
  - intros d Hd. unfold not_newline.
    destruct (Ascii.eqb_spec d newline) as [->|_]; [congruence | done].
Qed.

(** A line matched by [LOG_PATTERN] has the four-field shape, and its
    first three groups are the fields before the first three commas. *)
Lemma LOG_PATTERN_match_shape (line : string) (data : groupdict) :
  LOG_PATTERN_match line = Some data -> four_field_shape line.
Proof.
  unfold LOG_PATTERN_match.
  destruct (field line) as [[ts r1]|] eqn:H1; simpl; [|done].
  destruct (field r1) as [[lv r2]|] eqn:H2; simpl; [|done].
  destruct (field r2) as [[id r3]|] eqn:H3; simpl; [|done].
  destruct (rest_of_line r3) as [msg|] eqn:H4; simpl; [|done].
  intros _.
  apply field_spec in H1 as (-> & ? & ?).
  apply field_spec in H2 as (-> & ? & ?).
  apply field_spec in H3 as (-> & ? & ?).
  apply rest_of_line_spec in H4 as (Hm & Hr3).
  exists ts, lv, id, r3. repeat split; try done.
  destruct Hr3 as [->|(c & ->)]; [done|]. by destruct msg.
Qed.

(** Conversely, a line of the four-field shape that holds no newline is
    matched. *)
Lemma four_field_shape_match (line : string) :
  four_field_shape line -> contains newline line = false ->
  exists data, LOG_PATTERN_match line = Some data.
Proof.
  intros (ts & lv & id & msg & -> & ? & ? & ? & ? & ? & ? & ?) Hnl.
  unfold LOG_PATTERN_match.
  rewrite field_complete by done. simpl.
  rewrite field_complete by done. simpl.
  rewrite field_complete by done. simpl.
  rewrite rest_of_line_complete; [simpl; eauto | done |].
  rewrite !contains_app in Hnl.
  repeat (apply orb_false_iff in Hnl as [_ Hnl]). done.
Qed.

Lemma elem_of_middle {A} (x : A) (pre post : list A) :
  x ∈ (pre ++ x :: post)%list.
Proof. apply elem_of_app. right. apply list_elem_of_here. Qed.

Section Parser.
Local Open Scope list_scope.
Variable float : string -> option pyfloat.
Variable to_datetime : list cell -> list (option Z).

Lemma parse_line_unmatched (line : string) :
  ~ four_field_shape (strip line) -> parse_line float line = None.
Proof.
  intros Hshape. unfold parse_line.
  destruct (strip line) as [|c l] eqn:Hl; [done|].
  destruct (LOG_PATTERN_match (String c l)) as [data|] eqn:Hm; [|done].
  apply LOG_PATTERN_match_shape in Hm. contradiction.
Qed.


Lemma read_records_app (f g : list string) :
  read_records float (f ++ g) = read_records float f ++ read_records float g.
Proof.
  induction f as [|line f IH]; simpl; [done|].
  destruct (parse_line float line); simpl; by rewrite IH.
Qed.

(** C5. A line that, stripped, is not of the four-field shape adds no
    record and raises nothing: the records read from a file, and the
    outcome of loading it, are those of the file without that line. *)
Theorem unmatched_line_skipped (before after : list string) (line : string) :
  ~ four_field_shape (strip line) ->
  parse_line float line = None /\
  read_records float (before ++ line :: after) =
    read_records float (before ++ after) /\
  load_log float to_datetime (before ++ line :: after) =
    load_log float to_datetime (before ++ after).
Proof.
  intros Hshape. apply parse_line_unmatched in Hshape.
  assert (read_records float (before ++ line :: after) =
          read_records float (before ++ after)) as Hrec.
  { rewrite !read_records_app. simpl. by rewrite Hshape. }
  repeat split; [done..|]. unfold load_log. by rewrite Hrec.
Qed.

Lemma parse_token_keyed (result : gmap string (option pyfloat))
    (tok key v : string) :
  split_once "=" tok = (key, Some v) ->
  parse_token float result tok = <[key := float v]> result.
Proof.
  intros H. unfold parse_token. rewrite H.
  replace (contains "=" tok) with true; [done|].
  symmetry. apply contains_split_once. eauto.
Qed.

Lemma parse_token_other (result : gmap string (option pyfloat))
    (tok key : string) :
  key_of tok <> Some key ->
  parse_token float result tok !! key = result !! key.
Proof.
  unfold parse_token, key_of. destruct (contains "=" tok); [|done].
  destruct (split_once "=" tok) as [k [v|]]; [|done].
  intros Hk. rewrite lookup_insert_ne; [done | congruence].
Qed.

Lemma parse_token_keeps (result : gmap string (option pyfloat))
    (tok key : string) :
  is_Some (result !! key) -> is_Some (parse_token float result tok !! key).
Proof.
  intros Hk. unfold parse_token. destruct (contains "=" tok); [|done].
  destruct (split_once "=" tok) as [k [v|]]; [|done].
  destruct (decide (k = key)) as [->|Hne].
  - rewrite lookup_insert_eq. eauto.
  - by rewrite lookup_insert_ne.
Qed.

Lemma fold_parse_token_other (tokens : list string)
    (result : gmap string (option pyfloat)) (key : string) :
  (forall t, t ∈ tokens -> key_of t <> Some key) ->
  fold_left (parse_token float) tokens result !! key = result !! key.
Proof.
  revert result. induction tokens as [|t tokens IH]; intros result Hk;
    simpl; [done|].
  rewrite IH.
  - apply parse_token_other, Hk, list_elem_of_here.
  - intros t' Ht'. by apply Hk, list_elem_of_further.
Qed.

Lemma fold_parse_token_keeps (tokens : list string)
    (result : gmap string (option pyfloat)) (key : string) :
  is_Some (result !! key) ->
  is_Some (fold_left (parse_token float) tokens result !! key).
Proof.
  revert result. induction tokens as [|t tokens IH]; intros result Hk;
    simpl; [done|].
  by apply IH, parse_token_keeps.
Qed.

(** The last token that carries a key decides its value. *)
Lemma fold_parse_token_last (pre post : list string)
    (result : gmap string (option pyfloat)) (tok key v : string) :
  split_once "=" tok = (key, Some v) ->
  (forall t, t ∈ post -> key_of t <> Some key) ->
  fold_left (parse_token float) (pre ++ tok :: post) result !! key
  = Some (float v).
Proof.
  intros Htok Hpost. rewrite fold_left_app. simpl.
  rewrite fold_parse_token_other by done.
  rewrite (parse_token_keyed _ _ _ _ Htok). apply lookup_insert_eq.
Qed.

Lemma fold_parse_token_present (pre post : list string)
    (result : gmap string (option pyfloat)) (tok key v : string) :
  split_once "=" tok = (key, Some v) ->
  is_Some (fold_left (parse_token float) (pre ++ tok :: post) result !! key).
Proof.
  intros Htok. rewrite fold_left_app. simpl.
  apply fold_parse_token_keeps.
  rewrite (parse_token_keyed _ _ _ _ Htok), lookup_insert_eq. eauto.
Qed.

Lemma parse_message_tokens (message tok key v : string) :
  tok ∈ re_split (strip message) ->
  split_once "=" tok = (key, Some v) ->
  parse_message float message =
  fold_left (parse_token float) (re_split (strip message)) ∅.
Proof.
  intros Hin Htok. unfold parse_message.
  replace (contains "=" message) with true; [done|].
  symmetry. apply contains_strip.
  apply (contains_re_split _ _ tok); [done|].
  apply contains_split_once. eauto.
Qed.

Lemma make_record_msg_field (data : groupdict) (key : string)
    (v : option pyfloat) :
  parse_message float (message data) !! key = Some v ->
  make_record float data !! key = Some (float_cell v).
Proof.
  intros Hv. unfold make_record.
  apply lookup_union_Some_l. by rewrite lookup_fmap, Hv.
Qed.

(** C6 (amended). A token [key=value] of the message whose value is no
    float leaves its key in the parsed fields and in the record (it is
    not dropped and nothing is raised); the key holds null there
    provided no later token of the message carries the same key. *)
Theorem unparsable_value_is_null (data : groupdict) (pre post : list string)
    (tok key value_str : string) :
  re_split (strip (message data)) = pre ++ tok :: post ->
  split_once "=" tok = (key, Some value_str) ->
  float value_str = None ->
  is_Some (parse_message float (message data) !! key) /\
  is_Some (make_record float data !! key) /\
  ((forall t, t ∈ post -> key_of t <> Some key) ->
   parse_message float (message data) !! key = Some None /\
   make_record float data !! key = Some CNull).
Proof.
  intros Hsplit Htok Hfloat.
  assert (tok ∈ re_split (strip (message data))) as Hin.
  { rewrite Hsplit. apply elem_of_middle. }
  pose proof (parse_message_tokens _ _ _ _ Hin Htok) as Hpm.
  rewrite Hsplit in Hpm.
  assert (is_Some (parse_message float (message data) !! key)) as [v Hv].
  { rewrite Hpm. by eapply fold_parse_token_present. }
  split; [eauto|]. split.
  - rewrite (make_record_msg_field _ _ _ Hv). eauto.
  - intros Hlast.
    assert (parse_message float (message data) !! key = Some None) as Hn.
    { rewrite Hpm, <- Hfloat. by apply fold_parse_token_last. }
    split; [done|]. by rewrite (make_record_msg_field _ _ _ Hn).
Qed.


End Parser.

Lemma free_text_line_shape :
  ~ four_field_shape (strip Samples.free_text_line).
Proof.
  intros H. apply four_field_shape_match in H as [data Hd];
    [vm_compute in Hd; discriminate | reflexivity].
Qed.

Lemma unmatched_line_skipped_witness :
  parse_line py_float Samples.free_text_line = None /\
  read_records py_float
    ([Samples.pressure_line] ++ Samples.free_text_line :: [])%list =
    read_records py_float ([Samples.pressure_line] ++ [])%list /\
  load_log py_float Samples.sample_to_datetime
    ([Samples.pressure_line] ++ Samples.free_text_line :: [])%list =
    load_log py_float Samples.sample_to_datetime
      ([Samples.pressure_line] ++ [])%list.
Proof.
  apply unmatched_line_skipped. exact free_text_line_shape.
Defined.

Lemma unparsable_value_is_null_witness :
  let data := Samples.groups_of "pressure_kpa=high" in
  LOG_PATTERN_match (strip Samples.unparsable_line) = Some data /\
  is_Some (parse_message py_float (message data) !! "pressure_kpa") /\
  is_Some (make_record py_float data !! "pressure_kpa") /\
  parse_message py_float (message data) !! "pressure_kpa" = Some None /\
  make_record py_float data !! "pressure_kpa" = Some CNull.
Proof.
  intros data.
  destruct (unparsable_value_is_null py_float data [] []
              "pressure_kpa=high" "pressure_kpa" "high")
    as (H1 & H2 & H3); [reflexivity..|].
  split; [reflexivity|]. split; [exact H1|]. split; [exact H2|]. apply H3.
  intros t Ht. by apply elem_of_nil in Ht.
Defined.

(** C6 (as stated) fails when the key comes again later in the message:
    in the record of [duplicate_key_line] the token [a=x] has a value
    that is no float, yet [a] holds [1.0], the value of the later token
    [a=1]. *)
Lemma later_token_replaces_null :
  LOG_PATTERN_match (strip Samples.duplicate_key_line)
    = Some (Samples.groups_of "a=x a=1") /\
  re_split (strip "a=x a=1") = ["a=x"; "a=1"] /\
  split_once "=" "a=x" = ("a", Some "x") /\
  py_float "x" = None /\
  (parse_line py_float Samples.duplicate_key_line ≫= (.!! "a"))
    = Some (CFloat (Finite 1)) /\
  (parse_line py_float Samples.duplicate_key_line ≫= (.!! "a"))
    <> Some CNull.
Proof.
  assert ((parse_line py_float Samples.duplicate_key_line ≫= (.!! "a"))
          = Some (CFloat (Finite 1))) as E by (vm_compute; reflexivity).
  do 4 (split; [reflexivity|]). split; [exact E|]. by rewrite E.
Qed.


(** The line's own time stamp is lost: the record of
    [timestamp_key_line] holds null at [timestamp]. *)
Example timestamp_token_nulls_timestamp :
  (parse_line py_float Samples.timestamp_key_line ≫= (.!! "timestamp"))
  = Some CNull.
Proof. vm_compute. reflexivity. Qed.

End LogTrendProps.

Module FrameProps.
Import Frame.

Lemma empty_no_rows (df : DataFrame) : rows df = [] -> empty df = true.
Proof. unfold empty. by intros ->. Qed.

Lemma empty_rows_columns (df : DataFrame) :
  empty df = false <-> rows df <> [] /\ columns df <> ∅.
Proof.
  unfold empty. destruct (rows df) as [|r rs].
  - split; [done | by intros [? _]].
  - rewrite bool_decide_eq_false. split; [done | by intros [_ ?]].
Qed.

Lemma has_column_spec (df : DataFrame) (name : string) :
  has_column df name = true <-> name ∈ columns df.
Proof. unfold has_column. apply bool_decide_eq_true. Qed.

(** A frame made of records has a column only if it has a row. *)
Lemma of_records_not_empty (records : list (gmap string cell)) (name : string) :
  has_column (of_records records) name = true ->
  empty (of_records records) = false.
Proof.
  rewrite has_column_spec, empty_rows_columns. simpl. intros Hin. split.
  - intros ->. simpl in Hin. set_solver.
  - set_solver.
Qed.

Lemma of_records_has_column (records : list (gmap string cell)) (name : string) :
  records <> [] ->
  (forall r, r ∈ records -> is_Some (r !! name)) ->
  has_column (of_records records) name = true.
Proof.
  intros Hne Hall. apply has_column_spec. simpl.
  destruct records as [|r rs]; [done|].
  apply elem_of_union_list. exists (dom r). split.
  - apply list_elem_of_fmap. exists r. split; [done | apply list_elem_of_here].
  - apply elem_of_dom, Hall, list_elem_of_here.
Qed.

Lemma select_eq_no_rows (name value : string) (df : DataFrame) :
  rows df = [] -> rows (select_eq name value df) = [].
Proof. simpl. by intros ->. Qed.

Lemma select_eq_columns (name value : string) (df : DataFrame) :
  columns (select_eq name value df) = columns df.
Proof. done. Qed.

Lemma normalize_columns (to_datetime : list cell -> list (option Z))
    (df : DataFrame) (name : string) :
  has_column df name = true ->
  has_column (normalize_timestamp to_datetime df) name = true.
Proof. rewrite !has_column_spec. simpl. set_solver. Qed.

(** The loaders add no column but [timestamp]. *)
Lemma normalize_other_column (to_datetime : list cell -> list (option Z))
    (df : DataFrame) (name : string) :
  name <> "timestamp" ->
  has_column (normalize_timestamp to_datetime df) name = has_column df name.
Proof.
  intros Hname. unfold has_column. apply bool_decide_ext. simpl.
  rewrite elem_of_union, elem_of_singleton. tauto.
Qed.

End FrameProps.

Module AnalyzerProps.
Import PyStr Frame FrameProps.
Local Open Scope list_scope.

Ltac run := unfold mbind, result_bind; simpl.

Section Runs.
Variable float : string -> option pyfloat.
Variable to_datetime : list cell -> list (option Z).

Lemma make_record_base (data : LogTrend.groupdict) (name : string) :
  name ∈ LogTrend.base_fields ->
  is_Some (LogTrend.make_record float data !! name).
Proof.
  intros Hin. unfold LogTrend.make_record.
  apply lookup_union_is_Some. right.
  unfold LogTrend.base_fields in Hin.
  repeat (apply elem_of_cons in Hin as [->|Hin]; [by simplify_map_eq|]).
  by apply elem_of_nil in Hin.
Qed.

Lemma read_records_base (path : list string) (r : gmap string cell)
    (name : string) :
  r ∈ LogTrend.read_records float path -> name ∈ LogTrend.base_fields ->
  is_Some (r !! name).
Proof.
  intros Hr Hname. induction path as [|line path IH]; simpl in Hr.
  - by apply elem_of_nil in Hr.
  - destruct (LogTrend.parse_line float line) as [r'|] eqn:Hl; [|auto].
    apply elem_of_cons in Hr as [->|Hr]; [|auto].
    unfold LogTrend.parse_line in Hl.
    destruct (strip line); [done|].
    destruct (LogTrend.LOG_PATTERN_match _); [|done].
    injection Hl as <-. by apply make_record_base.
Qed.

(** A frame loaded from a log has the four base columns. *)
Lemma load_log_columns (path : list string) (df : DataFrame) (name : string) :
  LogTrend.load_log float to_datetime path = Ok df ->
  name ∈ LogTrend.base_fields -> has_column df name = true.
Proof.
  unfold LogTrend.load_log.
  destruct (empty (of_records _)) eqn:He; [done|].
  intros [= <-] Hname. apply normalize_columns.
  apply of_records_has_column.
  - apply empty_rows_columns in He as [He _]. exact He.
  - intros r Hr. by eapply read_records_base.
Qed.

(** *** Runs on a frame without rows *)

(** With a filter asked for and no [instrument_id] column, the run
    stops at the filter, before the frame is tested for rows. *)
Lemma csv_main_missing_column (csv df : DataFrame) (instrument : option string) :
  CsvTrend.load_csv to_datetime csv = Ok df ->
  truthy instrument = true -> has_column df "instrument_id" = false ->
  CsvTrend.main to_datetime csv instrument
  = Raise (SystemExit "No 'instrument_id' column in data to filter on.").
Proof.
  intros Hload Hfilter Hcol. unfold CsvTrend.main. rewrite Hload. run.
  by rewrite Hfilter, Hcol.
Qed.

Lemma csv_main_no_rows (csv df : DataFrame) (instrument : option string) :
  CsvTrend.load_csv to_datetime csv = Ok df -> rows df = [] ->
  truthy instrument = false \/ has_column df "instrument_id" = true ->
  CsvTrend.main to_datetime csv instrument
  = Raise (SystemExit "No data after filtering. Check instrument_id.").
Proof.
  intros Hload Hrows Hfilter. unfold CsvTrend.main. rewrite Hload. run.
  destruct (truthy instrument) eqn:Ht.
  - destruct Hfilter as [|Hcol]; [done|]. rewrite Hcol. run.
    by rewrite empty_no_rows by (by apply select_eq_no_rows).
  - run. by rewrite empty_no_rows by done.
Qed.

Lemma json_main_missing_column (json : list (gmap string cell)) (df : DataFrame)
    (metric : string) (instrument : option string) :
  JsonTrend.load_json to_datetime json = Ok df ->
  truthy instrument = true -> has_column df "instrument_id" = false ->
  JsonTrend.main to_datetime json metric instrument
  = Raise (SystemExit "No 'instrument_id' column in data to filter on.").
Proof.
  intros Hload Hfilter Hcol. unfold JsonTrend.main. rewrite Hload. run.
  by rewrite Hfilter, Hcol.
Qed.

Lemma json_main_no_rows (json : list (gmap string cell)) (df : DataFrame)
    (metric : string) (instrument : option string) :
  JsonTrend.load_json to_datetime json = Ok df -> rows df = [] ->
  truthy instrument = false \/ has_column df "instrument_id" = true ->
  JsonTrend.main to_datetime json metric instrument
  = Raise (SystemExit "No data after filtering. Check metric/instrument names.").
Proof.
  intros Hload Hrows Hfilter. unfold JsonTrend.main. rewrite Hload. run.
  destruct (truthy instrument) eqn:Ht.
  - destruct Hfilter as [|Hcol]; [done|]. rewrite Hcol. run.
    by rewrite empty_no_rows by (by apply select_eq_no_rows).
  - run. by rewrite empty_no_rows by done.
Qed.

Lemma log_main_no_rows (path : list string) (df : DataFrame)
    (metric instrument : option string) :
  LogTrend.load_log float to_datetime path = Ok df -> rows df = [] ->
  exists e, LogTrend.main float to_datetime path metric instrument = Raise e /\
            EmptyDataset e.
Proof.
  intros Hload Hrows. unfold LogTrend.main. rewrite Hload. run.
  rewrite (load_log_columns path df "instrument_id" Hload)
    by (unfold LogTrend.base_fields; set_solver).
  destruct (truthy instrument); run.
  - rewrite empty_no_rows by (by apply select_eq_no_rows).
    eexists. split; [done|]. unfold EmptyDataset. auto.
  - rewrite empty_no_rows by done.
    eexists. split; [done|]. unfold EmptyDataset. auto.
Qed.

(** *** Runs whose filter selects no row *)

Lemma truthy_some (id : string) : id <> "" -> truthy (Some id) = true.
Proof. by destruct id. Qed.

Lemma csv_main_filter_no_rows (csv df : DataFrame) (id : string) :
  CsvTrend.load_csv to_datetime csv = Ok df ->
  has_column df "instrument_id" = true -> id <> "" ->
  rows (select_eq "instrument_id" id df) = [] ->
  CsvTrend.main to_datetime csv (Some id)
  = Raise (SystemExit "No data after filtering. Check instrument_id.").
Proof.
  intros Hload Hcol Hid Hsel. unfold CsvTrend.main. rewrite Hload.
  rewrite truthy_some by done. run. rewrite Hcol. run.
  by rewrite (empty_no_rows _ Hsel).
Qed.

Lemma json_main_filter_no_rows (json : list (gmap string cell))
    (df : DataFrame) (metric id : string) :
  JsonTrend.load_json to_datetime json = Ok df ->
  has_column df "instrument_id" = true -> id <> "" ->
  rows (select_eq "instrument_id" id df) = [] ->
  JsonTrend.main to_datetime json metric (Some id)
  = Raise (SystemExit "No data after filtering. Check metric/instrument names.").
Proof.
  intros Hload Hcol Hid Hsel. unfold JsonTrend.main. rewrite Hload.
  rewrite truthy_some by done. run. rewrite Hcol. run.
  by rewrite (empty_no_rows _ Hsel).
Qed.

Lemma log_main_filter_no_rows (path : list string) (df : DataFrame)
    (metric : option string) (id : string) :
  LogTrend.load_log float to_datetime path = Ok df -> id <> "" ->
  rows (select_eq "instrument_id" id df) = [] ->
  LogTrend.main float to_datetime path metric (Some id)
  = Raise (SystemExit
             "No data after filtering. Check instrument_id or file content.").
Proof.
  intros Hload Hid Hsel. unfold LogTrend.main. rewrite Hload.
  rewrite truthy_some by done. run.
  rewrite (load_log_columns path df "instrument_id" Hload)
    by (unfold LogTrend.base_fields; set_solver).
  by rewrite (empty_no_rows _ Hsel).
Qed.

(** C7 (amended). When the input has a [timestamp] field and no record
    keeps a readable time stamp, each loader returns the frame without
    rows and raises nothing; it is the run that then stops, in [main],
    before any summary. In the CSV and JSON analyzers it stops with the
    missing-column exit when a filter is asked for and the input has no
    [instrument_id] column, and with the empty-dataset exit in every
    other case; in the log analyzer it always stops with the
    empty-dataset exit. *)
Theorem loaders_return_empty_frame :
  (forall (csv : DataFrame) (instrument : option string),
     has_column csv "timestamp" = true ->
     rows (normalize_timestamp to_datetime csv) = [] ->
     CsvTrend.load_csv to_datetime csv
       = Ok (normalize_timestamp to_datetime csv) /\
     exists e, CsvTrend.main to_datetime csv instrument = Raise e /\
               if truthy instrument && negb (has_column csv "instrument_id")
               then e = SystemExit "No 'instrument_id' column in data to filter on."
                    /\ MissingColumn e
               else e = SystemExit "No data after filtering. Check instrument_id."
                    /\ EmptyDataset e) /\
  (forall (json : list (gmap string cell)) (metric : string)
          (instrument : option string),
     has_column (of_records json) "timestamp" = true ->
     rows (normalize_timestamp to_datetime (of_records json)) = [] ->
     JsonTrend.load_json to_datetime json
       = Ok (normalize_timestamp to_datetime (of_records json)) /\
     exists e, JsonTrend.main to_datetime json metric instrument = Raise e /\
               if truthy instrument
                  && negb (has_column (of_records json) "instrument_id")
               then e = SystemExit "No 'instrument_id' column in data to filter on."
                    /\ MissingColumn e
               else e = SystemExit
                          "No data after filtering. Check metric/instrument names."
                    /\ EmptyDataset e) /\
  (forall (path : list string) (metric instrument : option string),
     has_column (of_records (LogTrend.read_records float path)) "timestamp"
       = true ->
     rows (normalize_timestamp to_datetime
             (of_records (LogTrend.read_records float path))) = [] ->
     LogTrend.load_log float to_datetime path
       = Ok (normalize_timestamp to_datetime
               (of_records (LogTrend.read_records float path))) /\
     exists e, LogTrend.main float to_datetime path metric instrument
               = Raise e /\ EmptyDataset e).
Proof.
  split; [|split].
  - intros csv instrument Hcol Hrows.
    assert (CsvTrend.load_csv to_datetime csv
            = Ok (normalize_timestamp to_datetime csv)) as Hload.
    { unfold CsvTrend.load_csv. by rewrite Hcol. }
    split; [done|].
    destruct (truthy instrument) eqn:Ht;
      [destruct (has_column csv "instrument_id") eqn:Hid|]; simpl;
      eexists; (split; [|split; [reflexivity|]]).
    + apply (csv_main_no_rows csv _ instrument Hload Hrows). right.
      by apply normalize_columns.
    + unfold EmptyDataset. auto.
    + apply (csv_main_missing_column csv _ instrument Hload Ht).
      by rewrite normalize_other_column.
    + unfold MissingColumn. auto.
    + apply (csv_main_no_rows csv _ instrument Hload Hrows). by left.
    + unfold EmptyDataset. auto.
  - intros json metric instrument Hcol Hrows.
    assert (JsonTrend.load_json to_datetime json
            = Ok (normalize_timestamp to_datetime (of_records json)))
      as Hload.
    { unfold JsonTrend.load_json. by rewrite Hcol. }
    split; [done|].
    destruct (truthy instrument) eqn:Ht;
      [destruct (has_column (of_records json) "instrument_id") eqn:Hid|];
      simpl; eexists; (split; [|split; [reflexivity|]]).
    + apply (json_main_no_rows json _ metric instrument Hload Hrows). right.
      by apply normalize_columns.
    + unfold EmptyDataset. auto.
    + apply (json_main_missing_column json _ metric instrument Hload Ht).
      by rewrite normalize_other_column.
    + unfold MissingColumn. auto.
    + apply (json_main_no_rows json _ metric instrument Hload Hrows).
      by left.
    + unfold EmptyDataset. auto.
  - intros path metric instrument Hcol Hrows.
    assert (LogTrend.load_log float to_datetime path
            = Ok (normalize_timestamp to_datetime
                    (of_records (LogTrend.read_records float path))))
      as Hload.
    { unfold LogTrend.load_log.
      by rewrite (of_records_not_empty _ _ Hcol). }
    split; [done|]. by eapply log_main_no_rows.
Qed.

(** C8 (amended). When the [value] column is absent the CSV analyzer
    prints a placeholder line in place of the statistics and the run
    goes on; when the requested metric is absent the JSON analyzer
    raises, and the run ends with that error. *)
Theorem absent_field_summary :
  (forall df : DataFrame,
     has_column df "value" = false ->
     CsvTrend.summarize_value df
       = [Text "No 'value' column found; skipping numeric summary."]) /\
  (forall csv df : DataFrame,
     CsvTrend.load_csv to_datetime csv = Ok df -> empty df = false ->
     has_column df "value" = false ->
     CsvTrend.main to_datetime csv None
       = Ok (Text "No 'value' column found; skipping numeric summary."
             :: CsvTrend.summarize_status df)) /\
  (forall (df : DataFrame) (metric : string),
     has_column df metric = false ->
     JsonTrend.summarize df metric
       = Raise (ValueError ("Metric '" ++ metric ++ "' not found in data")%string)
     /\ UnknownMetric
          (ValueError ("Metric '" ++ metric ++ "' not found in data")%string)) /\
  (forall (json : list (gmap string cell)) (df : DataFrame) (metric : string),
     JsonTrend.load_json to_datetime json = Ok df -> empty df = false ->
     has_column df metric = false ->
     JsonTrend.main to_datetime json metric None
       = Raise (ValueError ("Metric '" ++ metric ++ "' not found in data")%string)).
Proof.
  assert (forall df : DataFrame,
            has_column df "value" = false ->
            CsvTrend.summarize_value df
            = [Text "No 'value' column found; skipping numeric summary."])
    as Hcsv.
  { intros df Hcol. unfold CsvTrend.summarize_value. by rewrite Hcol. }
  assert (forall (df : DataFrame) (metric : string),
            has_column df metric = false ->
            JsonTrend.summarize df metric
            = Raise (ValueError
                       ("Metric '" ++ metric ++ "' not found in data")%string))
    as Hjson.
  { intros df metric Hcol. unfold JsonTrend.summarize. by rewrite Hcol. }
  split; [exact Hcsv|]. split; [|split].
  - intros csv df Hload Hne Hcol. unfold CsvTrend.main.
    rewrite Hload. run. by rewrite Hne, Hcsv.
  - intros df metric Hcol. split; [by apply Hjson|]. by exists metric.
  - intros json df metric Hload Hne Hcol. unfold JsonTrend.main.
    rewrite Hload. run. rewrite Hne. by apply Hjson.
Qed.

(** C9 (amended). When a non-empty instrument id is asked for, the
    loaded frame has an [instrument_id] column and no row of it has
    that id, the run stops with the empty-dataset exit. *)
Theorem no_match_is_empty_dataset (id : string) :
  id <> "" ->
  (forall csv df : DataFrame,
     CsvTrend.load_csv to_datetime csv = Ok df ->
     has_column df "instrument_id" = true ->
     rows (select_eq "instrument_id" id df) = [] ->
     exists e, CsvTrend.main to_datetime csv (Some id) = Raise e /\
               EmptyDataset e) /\
  (forall (json : list (gmap string cell)) (df : DataFrame) (metric : string),
     JsonTrend.load_json to_datetime json = Ok df ->
     has_column df "instrument_id" = true ->
     rows (select_eq "instrument_id" id df) = [] ->
     exists e, JsonTrend.main to_datetime json metric (Some id) = Raise e /\
               EmptyDataset e) /\
  (forall (path : list string) (df : DataFrame) (metric : option string),
     LogTrend.load_log float to_datetime path = Ok df ->
     rows (select_eq "instrument_id" id df) = [] ->
     exists e, LogTrend.main float to_datetime path metric (Some id) = Raise e /\
               EmptyDataset e).
Proof.
  intros Hid. split; [|split].
  - intros csv df Hload Hcol Hsel. eexists. split.
    + by eapply csv_main_filter_no_rows.
    + unfold EmptyDataset. auto.
  - intros json df metric Hload Hcol Hsel. eexists. split.
    + by eapply json_main_filter_no_rows.
    + unfold EmptyDataset. auto.
  - intros path df metric Hload Hsel. eexists. split.
    + by eapply log_main_filter_no_rows.
    + unfold EmptyDataset. auto.
Qed.

End Runs.

Import Samples.

Lemma loaders_return_empty_frame_witness :
  (CsvTrend.load_csv sample_to_datetime header_only_csv
     = Ok (normalize_timestamp sample_to_datetime header_only_csv) /\
   exists e, CsvTrend.main sample_to_datetime header_only_csv None = Raise e /\
             e = SystemExit "No data after filtering. Check instrument_id." /\
             EmptyDataset e) /\
  (CsvTrend.load_csv sample_to_datetime header_only_csv_without_instrument
     = Ok (normalize_timestamp sample_to_datetime
             header_only_csv_without_instrument) /\
   exists e, CsvTrend.main sample_to_datetime header_only_csv_without_instrument
               (Some "IVD-001") = Raise e /\
             e = SystemExit "No 'instrument_id' column in data to filter on." /\
             MissingColumn e) /\
  (JsonTrend.load_json sample_to_datetime json_null_timestamp
     = Ok (normalize_timestamp sample_to_datetime
             (of_records json_null_timestamp)) /\
   exists e, JsonTrend.main sample_to_datetime json_null_timestamp "value"
               (Some "IVD-001") = Raise e /\
             e = SystemExit
                   "No data after filtering. Check metric/instrument names." /\
             EmptyDataset e) /\
  (LogTrend.load_log py_float sample_to_datetime [bad_timestamp_line]
     = Ok (normalize_timestamp sample_to_datetime
             (of_records (LogTrend.read_records py_float [bad_timestamp_line]))) /\
   exists e, LogTrend.main py_float sample_to_datetime [bad_timestamp_line]
               None None = Raise e /\ EmptyDataset e).
Proof.
  destruct (loaders_return_empty_frame py_float sample_to_datetime)
    as (Hcsv & Hjson & Hlog).
  split; [|split; [|split]].
  - apply (Hcsv header_only_csv None); reflexivity.
  - apply (Hcsv header_only_csv_without_instrument (Some "IVD-001"));
      reflexivity.
  - apply (Hjson json_null_timestamp "value" (Some "IVD-001")); reflexivity.
  - apply Hlog; reflexivity.
Defined.

(** C7 (as stated) fails for every loader: a CSV file with its header
    line only, a JSON object with a null time stamp and a log line whose
    time stamp is no date-time all have a [timestamp] field and keep no
    record, and each loader returns a frame without rows. *)
Lemma loaders_do_not_raise_on_empty :
  (has_column header_only_csv "timestamp" = true /\
   exists df, CsvTrend.load_csv sample_to_datetime header_only_csv = Ok df /\
              rows df = []) /\
  (has_column (of_records json_null_timestamp) "timestamp" = true /\
   exists df, JsonTrend.load_json sample_to_datetime json_null_timestamp = Ok df /\
              rows df = []) /\
  (has_column (of_records (LogTrend.read_records py_float [bad_timestamp_line]))
     "timestamp" = true /\
   exists df, LogTrend.load_log py_float sample_to_datetime [bad_timestamp_line]
              = Ok df /\ rows df = []).
Proof.
  repeat split; try reflexivity; eexists; split; reflexivity.
Qed.

Lemma absent_field_summary_witness :
  CsvTrend.summarize_value csv_without_value
    = [Text "No 'value' column found; skipping numeric summary."] /\
  CsvTrend.main sample_to_datetime csv_without_value None
    = Ok (Text "No 'value' column found; skipping numeric summary."
          :: CsvTrend.summarize_status
               (normalize_timestamp sample_to_datetime csv_without_value)) /\
  JsonTrend.summarize (of_records sample_json) "pressure_kpa"
    = Raise (ValueError "Metric 'pressure_kpa' not found in data") /\
  JsonTrend.main sample_to_datetime sample_json "pressure_kpa" None
    = Raise (ValueError "Metric 'pressure_kpa' not found in data").
Proof.
  destruct (absent_field_summary sample_to_datetime) as (H1 & H2 & H3 & H4).
  split; [|split; [|split]].
  - apply H1. reflexivity.
  - apply (H2 csv_without_value); reflexivity.
  - apply (H3 (of_records sample_json) "pressure_kpa"). reflexivity.
  - apply (H4 sample_json
             (normalize_timestamp sample_to_datetime (of_records sample_json)));
      reflexivity.
Defined.

(** C8 (as stated) fails in the JSON analyzer: the example object of the
    script has no [pressure_kpa] field, and the run asked for that metric
    ends with an error instead of a placeholder line. *)
Lemma json_absent_metric_is_fatal :
  has_column (of_records sample_json) "pressure_kpa" = false /\
  JsonTrend.main sample_to_datetime sample_json "pressure_kpa" None
    = Raise (ValueError "Metric 'pressure_kpa' not found in data").
Proof. split; reflexivity. Qed.

Lemma no_match_is_empty_dataset_witness :
  (exists e, CsvTrend.main sample_to_datetime sample_csv (Some "IVD-999")
             = Raise e /\ EmptyDataset e) /\
  (exists e, JsonTrend.main sample_to_datetime sample_json "value"
               (Some "IVD-999") = Raise e /\ EmptyDataset e) /\
  (exists e, LogTrend.main py_float sample_to_datetime [pressure_line]
               (Some "pressure_kpa") (Some "IVD-999") = Raise e /\
             EmptyDataset e).
Proof.
  destruct (no_match_is_empty_dataset py_float sample_to_datetime "IVD-999")
    as (Hcsv & Hjson & Hlog); [discriminate|].
  split; [|split].
  - apply (Hcsv sample_csv (normalize_timestamp sample_to_datetime sample_csv));
      reflexivity.
  - apply (Hjson sample_json
             (normalize_timestamp sample_to_datetime (of_records sample_json)));
      reflexivity.
  - eapply Hlog; reflexivity.
Defined.

(** C9 (as stated) fails in two ways. No row of the example CSV file has
    the empty instrument id, yet the run asked for [--instrument ""] is
    not filtered and prints its summaries. And a file without an
    [instrument_id] column has no row with the id asked for, yet the run
    stops with the missing-column exit, not the empty-dataset one. *)
Lemma no_match_without_empty_dataset :
  (rows (select_eq "instrument_id" "" sample_csv) = [] /\
   exists out, CsvTrend.main sample_to_datetime sample_csv (Some "") = Ok out) /\
  (rows (select_eq "instrument_id" "IVD-001" csv_without_instrument) = [] /\
   CsvTrend.main sample_to_datetime csv_without_instrument (Some "IVD-001")
     = Raise (SystemExit "No 'instrument_id' column in data to filter on.") /\
   ~ EmptyDataset (SystemExit "No 'instrument_id' column in data to filter on.")).
Proof.
  split; split; try reflexivity.
  - eexists. vm_compute. reflexivity.
  - split; [reflexivity|]. unfold EmptyDataset. intros [H|[H|[H|H]]]; discriminate H.
Qed.

End AnalyzerProps.

Module TimeSeriesProps.
Import TimeSeries.
Local Open Scope Qc_scope.

Lemma Qc_sum_scale (f : nat -> Qc) (c : Qc) (l : list nat) :
  Qc_sum (map (fun j => f j * c) l) = Qc_sum (map f l) * c.
Proof.
  induction l as [|j l IH]; simpl.
  - ring.
  - rewrite IH. ring.
Qed.

Lemma np_ones_length (n : Z) : length (np_ones n) = Z.to_nat n.
Proof. apply repeat_length. Qed.

Lemma window_eq (W : Z) :
  map (fun o => o / Qc_of_Z W) (np_ones W) = repeat (1 / Qc_of_Z W) (Z.to_nat W).
Proof.
  unfold np_ones. induction (Z.to_nat W) as [|n IH]; simpl; [done|].
  by rewrite IH.
Qed.

Lemma rev_repeat_id {A} (c : A) (n : nat) : rev (repeat c n) = repeat c n.
Proof.
  induction n as [|n IH]; simpl; [done|].
  rewrite IH. clear IH. induction n as [|n IH]; simpl; [done|].
  by rewrite IH.
Qed.

Lemma nth_repeat_lt {A} (c d : A) (n j : nat) :
  (j < n)%nat -> nth j (repeat c n) d = c.
Proof.
  revert j. induction n as [|n IH]; intros j Hj; [lia|].
  destruct j as [|j]; simpl; [done|]. apply IH. lia.
Qed.



(** The correlation has one output per sample of its first operand. *)
Lemma np_correlate_same_length (a v : list Qc) :
  length (np_correlate_same a v) = length a.
Proof. unfold np_correlate_same. by rewrite length_map, length_seq. Qed.

Lemma np_convolve_same_window (x : list Qc) (c : Qc) (n : nat) :
  (1 <= n)%nat -> (n <= length x)%nat ->
  np_convolve_same x (repeat c n) = Ok (np_correlate_same x (repeat c n)).
Proof.
  intros H1 Hn. unfold np_convolve_same. rewrite repeat_length.
  destruct (Nat.ltb_spec (length x) n) as [?|_]; [lia|].
  destruct (Nat.eqb_spec (length x) 0) as [?|_]; [lia|].
  rewrite repeat_length.
  destruct (Nat.eqb_spec n 0) as [?|_]; [lia|].
  by rewrite rev_repeat_id.
Qed.

Lemma np_correlate_same_uniform (x : list Qc) (c : Qc) (n : nat) :
  np_correlate_same x (repeat c n) =
  map (fun k : nat =>
         Qc_sum (map (fun j : nat =>
                        sample x (Z.of_nat k - Z.of_nat (n / 2) + Z.of_nat j))
                     (seq 0 n)) * c)
      (seq 0 (length x)).
Proof.
  unfold np_correlate_same. rewrite repeat_length.
  apply map_ext. intros k. rewrite <- Qc_sum_scale. f_equal.
  apply map_ext_in. intros j Hj. apply in_seq in Hj.
  rewrite nth_repeat_lt by lia. done.
Qed.

(** For a non-empty input and a window no longer than it, the output has
    one value per input sample. *)
Lemma moving_average_length_short_window (x : list Qc) (W : Z) :
  (1 <= W)%Z -> (W <= Z.of_nat (length x))%Z ->
  exists y, moving_average x W = Ok y /\ length y = length x.
Proof.
  intros H1 HW. unfold moving_average.
  destruct (Z.ltb_spec W 1) as [?|_]; [lia|].
  rewrite window_eq, np_convolve_same_window by lia.
  eexists. split; [done|]. apply np_correlate_same_length.
Qed.

(** For a non-empty input and a window longer than it, the output has one
    value per kernel entry: [window_size] values. *)
Lemma moving_average_length_long_window (x : list Qc) (W : Z) :
  x <> [] -> (Z.of_nat (length x) < W)%Z ->
  exists y, moving_average x W = Ok y /\ length y = Z.to_nat W.
Proof.
  intros Hx HW. unfold moving_average.
  destruct (Z.ltb_spec W 1) as [?|_]; [lia|].
  rewrite window_eq. unfold np_convolve_same. rewrite repeat_length.
  destruct (Nat.ltb_spec (length x) (Z.to_nat W)) as [_|?]; [|lia].
  rewrite repeat_length.
  destruct (Nat.eqb_spec (Z.to_nat W) 0) as [?|_]; [lia|].
  destruct (Nat.eqb_spec (length x) 0) as [H0|_].
  - destruct x; [done | discriminate H0].
  - eexists. split; [done|].
    by rewrite np_correlate_same_length, repeat_length.
Qed.

(** Over exact rationals, for a window size [1 <= W <= N] the moving
    average of a sequence [x] of length [N] is the zero-padded same-mode
    convolution of [x] with the uniform kernel of length [W]: [N] values,
    the one at position [k] being the sum of the [W] samples centred on
    [k] (zeros beyond the ends) divided by [W]. *)
Lemma moving_average_zero_padded (x : list Qc) (W : Z) :
  (1 <= W)%Z -> (W <= Z.of_nat (length x))%Z ->
  moving_average x W = Ok (zero_padded_mean x W).
Proof.
  intros H1 HW. unfold moving_average.
  destruct (Z.ltb_spec W 1) as [?|_]; [lia|].
  rewrite window_eq, np_convolve_same_window by lia.
  rewrite np_correlate_same_uniform. f_equal.
  unfold zero_padded_mean, centered_window_sum.
  apply map_ext. intros k.
  rewrite Nat2Z.inj_div, Z2Nat.id by lia.
  change (Z.of_nat 2) with 2%Z.
  unfold Qcdiv. ring.
Qed.

(** C1 (as stated) fails: an empty input is rejected by the convolution,
    a window longer than the input gives [W] values instead of [N], and
    in doubles the value at a position is not the window sum divided by
    [W]: for the flat signal [7.0] and [W = 5] the sum of the five
    samples under the middle window divided by [5] is [7.0], and the
    smoothed value there is above [7.0]. *)
Lemma moving_average_zero_padded_fails :
  moving_average [] 1 <> Ok (zero_padded_mean [] 1) /\
  moving_average [1] 3 <> Ok (zero_padded_mean [1] 3) /\
  exists y m,
    Doubles.moving_average Samples.flat_signal 5 = Ok y /\
    y !! 4%nat = Some m /\
    PrimFloat.div
      (fold_left PrimFloat.add (firstn 5 (skipn 2 Samples.flat_signal))
                 PrimFloat.zero)
      (Doubles.of_int 5) = Doubles.of_int 7 /\
    PrimFloat.ltb (Doubles.of_int 7) m = true.
Proof.
  split; [|split].
  - discriminate.
  - destruct (moving_average_length_long_window [1] 3) as (y & Hy & Hlen);
      [done | simpl; lia |].
    rewrite Hy. intros [= ->]. discriminate Hlen.
  - eexists. eexists. split; [vm_compute; reflexivity|].
    split; [reflexivity|]. split; vm_compute; reflexivity.
Qed.

(** C2. With the one-sample input [[1.0]] and [window_size = 3] the
    smoother returns three values, [1/3] each, not one: when the window is
    longer than the input, [np.convolve] swaps its operands and the output
    takes the length of the kernel. *)
Theorem moving_average_long_window_output :
  exists y : list Qc,
    moving_average [1] 3 = Ok y /\
    y = [1 / Qc_of_Z 3; 1 / Qc_of_Z 3; 1 / Qc_of_Z 3] /\
    length y = 3%nat /\ length [1 : Qc] = 1%nat.
Proof. eexists. repeat split; reflexivity. Qed.





(** C4 (amended). The moving average fails with the invalid-argument
    error whenever [window_size < 1]; for [window_size >= 1] it returns a
    sequence provided the input is non-empty. *)
Theorem moving_average_failure (x : list Qc) (W : Z) :
  ((W < 1)%Z ->
   exists e, moving_average x W = Raise e /\ InvalidArgument e) /\
  ((1 <= W)%Z -> x <> [] -> exists y, moving_average x W = Ok y).
Proof.
  split.
  - intros HW. unfold moving_average.
    destruct (Z.ltb_spec W 1) as [_|?]; [|lia].
    eexists. split; reflexivity.
  - intros HW Hx.
    destruct (Z.le_gt_cases W (Z.of_nat (length x))) as [Hle|Hgt].
    + destruct (moving_average_length_short_window x W) as (y & Hy & _);
        eauto.
    + destruct (moving_average_length_long_window x W) as (y & Hy & _);
        eauto.
Qed.

Lemma moving_average_failure_witness :
  (exists e, moving_average [1] 0 = Raise e /\ InvalidArgument e) /\
  exists y, moving_average [1] 25 = Ok y.
Proof.
  split.
  - apply (moving_average_failure [1] 0). lia.
  - apply (moving_average_failure [1] 25); [lia | discriminate].
Defined.

(** C4 (as stated) fails: with the default [window_size = 25] and an
    empty input the call raises although [window_size >= 1]. *)
Lemma moving_average_empty_input_raises :
  (1 <= 25)%Z /\
  moving_average [] 25 = Raise (ValueError "v cannot be empty").
Proof. split; [lia | reflexivity]. Qed.

End TimeSeriesProps.

Module SmoothingProps.
Import Smoothing.
Local Open Scope list_scope.

Section Arithmetic.
Context {number : Type}.
Variable one : number.
Variable of_int : Z -> number.
Variable divide : number -> number -> number.
Variable dot : nat -> list number -> list number -> number.

Lemma skipn_repeat (c : number) (n m : nat) :
  skipn m (repeat c n) = repeat c (n - m).
Proof.
  revert m. induction n as [|n IH]; intros [|m]; simpl; auto.
Qed.

Lemma firstn_repeat (c : number) (n m : nat) :
  firstn m (repeat c n) = repeat c (Nat.min m n).
Proof.
  revert m. induction n as [|n IH]; intros [|m]; simpl; try done.
  by rewrite IH.
Qed.

Lemma slice_repeat (c : number) (n lo hi : nat) :
  slice (repeat c n) lo hi = repeat c (Nat.min (hi - lo) (n - lo)).
Proof. unfold slice. by rewrite skipn_repeat, firstn_repeat. Qed.

Lemma slice_length (a : list number) (lo hi : nat) :
  length (slice a lo hi) = Nat.min (hi - lo) (length a - lo).
Proof. unfold slice. by rewrite length_firstn, length_skipn. Qed.

Lemma slice_empty (a : list number) (lo hi : nat) :
  (hi <= lo)%nat -> slice a lo hi = [].
Proof. intros H. unfold slice. by replace (hi - lo)%nat with 0%nat by lia. Qed.

Lemma slice_cons (a : list number) (lo hi : nat) (v : number) :
  a !! lo = Some v -> (lo < hi)%nat ->
  slice a lo hi = v :: slice a (S lo) hi.
Proof.
  intros Hv Hlt. unfold slice.
  change (skipn lo a) with (drop lo a). rewrite (drop_S _ _ _ Hv).
  replace (hi - lo)%nat with (S (hi - S lo)) by lia. done.
Qed.

(** The samples under a window are a stretch of the sequence. *)
Lemma window_stretch (x : list number) (lo : Z) (s n : nat) :
  flat_map (fun j : nat => sample_at x (lo + Z.of_nat j)) (seq s n)
  = slice x (Z.to_nat (lo + Z.of_nat s))
            (Z.to_nat (Z.min (lo + Z.of_nat s + Z.of_nat n)
                             (Z.of_nat (length x)))).
Proof.
  revert s. induction n as [|n IH]; intros s.
  - simpl. rewrite slice_empty; [done|lia].
  - cbn [seq flat_map]. rewrite IH. unfold sample_at.
    destruct (Z.leb_spec 0 (lo + Z.of_nat s)) as [Hpos|Hneg].
    + destruct (x !! Z.to_nat (lo + Z.of_nat s)) as [v|] eqn:Hv; simpl.
      * pose proof (lookup_lt_Some _ _ _ Hv) as Hlt.
        rewrite (slice_cons x (Z.to_nat (lo + Z.of_nat s)) _ v Hv) by lia.
        f_equal. f_equal; lia.
      * apply lookup_ge_None in Hv.
        rewrite !slice_empty; [done|lia..].
    + simpl. f_equal; lia.
Qed.

Lemma window_samples_slice (x : list number) (W : Z) (k : Z) :
  (0 <= W)%Z ->
  window_samples x W k
  = slice x (Z.to_nat (k - W / 2))
            (Z.to_nat (Z.min (k - W / 2 + W) (Z.of_nat (length x)))).
Proof.
  intros HW. unfold window_samples. rewrite window_stretch.
  f_equal; lia.
Qed.

Lemma kernel_uniform (W : Z) :
  map (fun o => divide o (of_int W)) (np_ones number one W)
  = repeat (divide one (of_int W)) (Z.to_nat W).
Proof.
  unfold np_ones. induction (Z.to_nat W) as [|n IH]; simpl; [done|].
  by rewrite IH.
Qed.

Lemma np_convolve_same_kernel (x : list number) (c : number) (n : nat) :
  (1 <= n)%nat -> (n <= length x)%nat ->
  np_convolve_same number dot x (repeat c n)
  = Ok (np_correlate_same number dot x (repeat c n)).
Proof.
  intros H1 Hn. unfold np_convolve_same. rewrite repeat_length.
  destruct (Nat.ltb_spec (length x) n) as [?|_]; [lia|].
  destruct (Nat.eqb_spec (length x) 0) as [?|_]; [lia|].
  rewrite repeat_length.
  destruct (Nat.eqb_spec n 0) as [?|_]; [lia|].
  by rewrite TimeSeriesProps.rev_repeat_id.
Qed.

(** C1 (amended). For a window size [1 <= W <= N] the moving average of a
    sequence [x] of length [N] is the same-mode convolution of [x] with
    the uniform kernel of length [W], whose entries are [1/W] as the
    arithmetic divides: [N] values, the one at position [k] being the dot
    product of the samples that lie under the window of [W] positions
    centred on [k] (positions beyond the ends take no part, as zeros
    would) with as many kernel entries [1/W]. In doubles that is the
    window sum divided by [W] up to rounding only. *)
Theorem moving_average_windowed (x : list number) (W : Z) :
  (1 <= W)%Z -> (W <= Z.of_nat (length x))%Z ->
  moving_average number one of_int divide dot x W
  = Ok (windowed_dots number one of_int divide dot x W) /\
  length (windowed_dots number one of_int divide dot x W) = length x.
Proof.
  intros H1 HW. split.
  - unfold moving_average.
    destruct (Z.ltb_spec W 1) as [?|_]; [lia|].
    rewrite kernel_uniform, np_convolve_same_kernel by lia. f_equal.
    unfold np_correlate_same, windowed_dots. rewrite repeat_length.
    apply map_ext_in. intros k Hk. apply in_seq in Hk. cbv zeta.
    assert (Z.of_nat (Z.to_nat W / 2) = W / 2)%Z as Hhalf.
    { rewrite Nat2Z.inj_div, Z2Nat.id by lia. done. }
    pose proof (Z.div_pos W 2) as Hdiv0.
    assert (W / 2 <= W)%Z as Hdiv by (apply Z.div_le_upper_bound; lia).
    rewrite window_samples_slice by lia.
    rewrite slice_repeat, slice_length. f_equal.
    + f_equal; lia.
    + f_equal. lia.
  - unfold windowed_dots. by rewrite length_map, length_seq.
Qed.

End Arithmetic.
End SmoothingProps.

Module DoublesProps.
Import Smoothing SmoothingProps Samples.
Local Open Scope list_scope.

Lemma moving_average_windowed_witness :
  Doubles.moving_average flat_signal 5
  = Ok (windowed_dots PrimFloat.float PrimFloat.one Doubles.of_int PrimFloat.div
          (fun _ => Doubles.sequential_dot) flat_signal 5) /\
  length (windowed_dots PrimFloat.float PrimFloat.one Doubles.of_int
            PrimFloat.div (fun _ => Doubles.sequential_dot) flat_signal 5)
  = length flat_signal.
Proof.
  apply (moving_average_windowed PrimFloat.one Doubles.of_int PrimFloat.div
           (fun _ => Doubles.sequential_dot) flat_signal 5);
    simpl; lia.
Defined.

(** X25. In doubles the window sum divided by [W] is met up to rounding
    only: with the products added from left to right, the flat signal
    [7.0] of nine samples smoothed with [W = 5] has at its middle
    position the next double above [7.0] (7.000000000000001), a value
    above every sample. *)
Theorem moving_average_rounds :
  exists y, Doubles.moving_average flat_signal 5 = Ok y /\
            y !! 4%nat = Some (PrimFloat.next_up (Doubles.of_int 7)) /\
            PrimFloat.ltb (Doubles.of_int 7)
                          (PrimFloat.next_up (Doubles.of_int 7)) = true.
Proof.
  eexists. split; [vm_compute; reflexivity|]. split; reflexivity.
Qed.

End DoublesProps.

Module ExactProps.
Import TimeSeries Smoothing SmoothingProps.
Local Open Scope list_scope.
Local Open Scope Qc_scope.

Lemma exact_dot_nil_l (v : list Qc) : exact_dot [] v = 0.
Proof. done. Qed.

Lemma exact_dot_cons (a c : Qc) (s t : list Qc) :
  exact_dot (a :: s) (c :: t) = a * c + exact_dot s t.
Proof. done. Qed.

Lemma sample_outside (a : list Qc) (i : Z) :
  (i < 0 \/ Z.of_nat (length a) <= i)%Z -> sample a i = 0.
Proof.
  intros Hi. unfold sample.
  destruct (Z.leb_spec 0 i); destruct (Z.ltb_spec i (Z.of_nat (length a)));
    simpl; try done; lia.
Qed.

Lemma sample_inside (a : list Qc) (i : Z) (v : Qc) :
  (0 <= i)%Z -> a !! Z.to_nat i = Some v -> sample a i = v.
Proof.
  intros Hi Hv. unfold sample.
  pose proof (lookup_lt_Some _ _ _ Hv) as Hlt.
  destruct (Z.leb_spec 0 i); [|lia].
  destruct (Z.ltb_spec i (Z.of_nat (length a))); [|lia]. simpl.
  by apply nth_lookup_Some with (d := 0) in Hv.
Qed.

(** The zero-padded sum of products is the dot product of the two
    stretches that overlap. *)
Lemma padded_sum_exact_dot (v a : list Qc) (lo : Z) :
  Qc_sum (map (fun j : nat => sample a (lo + Z.of_nat j) * nth j v 0)
              (seq 0 (length v)))
  = exact_dot
      (slice a (Z.to_nat lo)
               (Z.to_nat (Z.min (lo + Z.of_nat (length v))
                                (Z.of_nat (length a)))))
      (slice v (Z.to_nat (- lo))
               (Z.to_nat (Z.min (Z.of_nat (length v))
                                (Z.of_nat (length a) - lo)))).
Proof.
  revert lo. induction v as [|c v IH]; intros lo.
  - simpl. rewrite (slice_empty a); [done|lia].
  - cbn [length seq map Qc_sum fold_right]. rewrite <- seq_shift, map_map.
    fold (Qc_sum (map (fun j : nat => sample a (lo + Z.of_nat (S j))
                                      * nth (S j) (c :: v) 0)
                      (seq 0 (length v)))).
    rewrite (map_ext _ (fun j : nat => sample a (lo + 1 + Z.of_nat j)
                                       * nth j v 0)); cycle 1.
    { intros j. simpl nth. f_equal. f_equal. lia. }
    rewrite IH. replace (Z.of_nat 0) with 0%Z by done. rewrite Z.add_0_r.
    simpl nth.
    destruct (Z.ltb_spec lo 0) as [Hneg|Hpos].
    + rewrite sample_outside by lia. rewrite Qcmult_0_l, Qcplus_0_l.
      f_equal.
      * f_equal; lia.
      * unfold slice.
        replace (Z.to_nat (- lo)) with (S (Z.to_nat (- (lo + 1)))) by lia.
        simpl skipn. f_equal. lia.
    + destruct (a !! Z.to_nat lo) as [x|] eqn:Hx.
      * pose proof (lookup_lt_Some _ _ _ Hx) as Hlt.
        rewrite (sample_inside a lo x) by done.
        rewrite (slice_cons a (Z.to_nat lo) _ x Hx) by lia.
        unfold slice at 4.
        replace (Z.to_nat (- lo)) with 0%nat by lia.
        replace (Z.to_nat (Z.min (Z.of_nat (S (length v)))
                                 (Z.of_nat (length a) - lo)) - 0)%nat
          with (S (Z.to_nat (Z.min (Z.of_nat (length v))
                                   (Z.of_nat (length a) - (lo + 1))))) by lia.
        simpl skipn. simpl firstn. rewrite exact_dot_cons. f_equal.
        f_equal.
        -- f_equal; lia.
        -- unfold slice. replace (Z.to_nat (- (lo + 1))) with 0%nat by lia.
           simpl skipn. f_equal. lia.
      * apply lookup_ge_None in Hx.
        rewrite sample_outside by lia.
        rewrite !(slice_empty a) by lia.
        rewrite !exact_dot_nil_l. ring.
Qed.

Lemma np_correlate_same_exact (a v : list Qc) :
  Smoothing.np_correlate_same Qc (fun _ => exact_dot) a v
  = TimeSeries.np_correlate_same a v.
Proof.
  unfold Smoothing.np_correlate_same, TimeSeries.np_correlate_same.
  apply map_ext_in. intros k Hk. apply in_seq in Hk. cbv zeta.
  pose proof (Nat.Div0.div_le_upper_bound (length v) 2 (length v)) as Hhalf.
  rewrite padded_sum_exact_dot. f_equal; f_equal; lia.
Qed.

(** The smoother over exact rationals is the smoother over any
    arithmetic, taken with the rationals and their exact dot product. *)
Lemma moving_average_exact (x : list Qc) (W : Z) :
  Smoothing.moving_average Qc 1 Qc_of_Z Qcdiv (fun _ => exact_dot) x W
  = TimeSeries.moving_average x W.
Proof.
  unfold Smoothing.moving_average, TimeSeries.moving_average.
  destruct (W <? 1)%Z; [done|].
  unfold Smoothing.np_convolve_same, TimeSeries.np_convolve_same.
  change (Smoothing.np_ones Qc 1 W) with (TimeSeries.np_ones W).
  destruct (_ <? _)%nat; destruct (_ =? _)%nat; try done;
    destruct (_ =? _)%nat; try done; by rewrite np_correlate_same_exact.
Qed.

End ExactProps.


Module TimeSeriesExtra.
Import TimeSeries TimeSeriesProps.
Local Open Scope Qc_scope.
Local Open Scope list_scope.

(** X1. The output has as many values as the longer of the input and the
    kernel. *)
Theorem moving_average_length (x : list Qc) (W : Z) :
  x <> [] -> (1 <= W)%Z ->
  exists y, moving_average x W = Ok y /\
            length y = Nat.max (length x) (Z.to_nat W).
Proof.
  intros Hx HW.
  destruct (Z.le_gt_cases W (Z.of_nat (length x))) as [Hle|Hgt].
  - destruct (moving_average_length_short_window x W) as (y & Hy & Hl);
      [done..|].
    exists y. split; [done|]. lia.
  - destruct (moving_average_length_long_window x W) as (y & Hy & Hl);
      [done | lia |].
    exists y. split; [done|]. lia.
Qed.

Lemma moving_average_length_witness :
  exists y, moving_average (map Qc_of_Z [1; 2]%Z) 5 = Ok y /\
            length y = Nat.max 2 5.
Proof. apply (moving_average_length (map Qc_of_Z [1; 2]%Z) 5); [discriminate | lia]. Defined.

End TimeSeriesExtra.

Module LogTrendExtra.
Import PyStr PyStrProps LogTrend LogTrendProps LogFormat FrameProps Drawing.

Lemma append_assoc (a b c : string) : (a ++ b) ++ c = a ++ (b ++ c).
Proof.
  induction a as [|x a IH]; [done|].
  change (String x ((a ++ b) ++ c) = String x (a ++ (b ++ c))). by rewrite IH.
Qed.

(** X6. Formatting then matching gives the groups back: the line is split at
    its first three commas, and commas inside the message stay in the
    message. *)
Theorem LOG_PATTERN_match_format (data : groupdict) :
  well_formed data -> LOG_PATTERN_match (format_line data) = Some data.
Proof.
  intros (? & ? & ? & ? & ? & ? & ? & ?). unfold LOG_PATTERN_match, format_line.
  rewrite field_complete by done. simpl.
  rewrite field_complete by done. simpl.
  rewrite field_complete by done. simpl.
  rewrite rest_of_line_complete by done. simpl. by destruct data.
Qed.

Lemma LOG_PATTERN_match_format_witness :
  LOG_PATTERN_match (format_line (Samples.groups_of "pump_stall, retry=3"))
  = Some (Samples.groups_of "pump_stall, retry=3").
Proof.
  apply LOG_PATTERN_match_format. unfold well_formed. simpl.
  repeat split; discriminate.
Defined.

Lemma rest_of_line_newline (s m : string) :
  rest_of_line s = Some m ->
  m <> "" /\ contains newline m = false /\
  (s = m \/ s = m ++ String newline "").
Proof.
  unfold rest_of_line. destruct (span not_newline s) as [p q] eqn:Hs.
  apply span_spec in Hs as (-> & Hp & Hq).
  assert (contains newline p = false) as Hnl.
  { destruct (contains newline p) eqn:Hc; [|done].
    apply Hp in Hc. by vm_compute in Hc. }
  destruct p as [|c p]; [done|].
  destruct q as [|d [|e q]]; intros [= <-]; split; try done; split; try done.
  - left. by rewrite append_empty_r.
  - right. unfold not_newline in Hq. apply negb_false_iff in Hq.
    by apply Ascii.eqb_eq in Hq as ->.
Qed.

(** X7. A matched line is the formatted text of its groups, possibly followed
    by one final newline, and its groups are well formed. *)
Theorem LOG_PATTERN_match_inverse (line : string) (data : groupdict) :
  LOG_PATTERN_match line = Some data ->
  well_formed data /\
  (line = format_line data \/ line = format_line data ++ String newline "").
Proof.
  unfold LOG_PATTERN_match.
  destruct (field line) as [[ts r1]|] eqn:H1; simpl; [|done].
  destruct (field r1) as [[lv r2]|] eqn:H2; simpl; [|done].
  destruct (field r2) as [[id r3]|] eqn:H3; simpl; [|done].
  destruct (rest_of_line r3) as [msg|] eqn:H4; simpl; [|done].
  intros [= <-].
  apply field_spec in H1 as (-> & ? & ?).
  apply field_spec in H2 as (-> & ? & ?).
  apply field_spec in H3 as (-> & ? & ?).
  apply rest_of_line_newline in H4 as (? & ? & Hr3).
  split; [by repeat split|]. unfold format_line. simpl.
  destruct Hr3 as [-> | ->]; [by left | right].
  by rewrite !append_assoc.
Qed.

Lemma LOG_PATTERN_match_inverse_witness :
  well_formed (Samples.groups_of "pressure_kpa=101.3") /\
  (Samples.pressure_line = format_line (Samples.groups_of "pressure_kpa=101.3") \/
   Samples.pressure_line
   = format_line (Samples.groups_of "pressure_kpa=101.3") ++ String newline "").
Proof. by apply LOG_PATTERN_match_inverse. Defined.

Lemma rstrip_last (s p : string) (c : ascii) :
  rstrip s = p ++ String c "" -> is_space c = false.
Proof.
  revert p. induction s as [|d s IH]; intros p; simpl.
  - by destruct p.
  - destruct (rstrip s) as [|e r] eqn:Hr.
    + destruct (is_space d) eqn:Hd; [by destruct p|].
      destruct p as [|x [|y p]]; [|done..]. by intros [= <-].
    + destruct p as [|x p].
      * by intros [=].
      * intros [= _ Hp]. by apply (IH p).
Qed.

Section Parser.
Local Open Scope list_scope.
Variable float : string -> option pyfloat.
Variable to_datetime : list cell -> list (option Z).

(** X8. Every record read from a log comes from a line that, stripped, is
    exactly the formatted text of well-formed groups. *)
Theorem parse_line_inverse (line : string) (record : gmap string cell) :
  parse_line float line = Some record ->
  exists data, well_formed data /\ strip line = format_line data /\
               record = make_record float data.
Proof.
  unfold parse_line. destruct (strip line) as [|c l] eqn:Hl; [done|].
  destruct (LOG_PATTERN_match (String c l)) as [data|] eqn:Hm; [|done].
  intros [= <-]. exists data.
  unfold LOG_PATTERN_match in Hm.
  destruct (field (String c l)) as [[ts r1]|] eqn:H1; simpl in Hm; [|done].
  destruct (field r1) as [[lv r2]|] eqn:H2; simpl in Hm; [|done].
  destruct (field r2) as [[id r3]|] eqn:H3; simpl in Hm; [|done].
  destruct (rest_of_line r3) as [msg|] eqn:H4; simpl in Hm; [|done].
  injection Hm as <-.
  apply field_spec in H1 as (H1 & ? & ?).
  apply field_spec in H2 as (-> & ? & ?).
  apply field_spec in H3 as (-> & ? & ?).
  apply rest_of_line_newline in H4 as (? & ? & Hr3).
  split; [by repeat split|]. split; [|done].
  unfold format_line. simpl. rewrite H1.
  destruct Hr3 as [-> | ->]; [done|]. exfalso.
  unfold strip in Hl. rewrite H1 in Hl.
  assert (is_space newline = false) as Hsp; [|by vm_compute in Hsp].
  apply (rstrip_last (lstrip line)
           (ts ++ "," ++ lv ++ "," ++ id ++ "," ++ msg)%string).
  rewrite Hl. by rewrite !append_assoc.
Qed.

Lemma parse_token_cases (result : gmap string (option pyfloat)) (tok : string) :
  (exists k v, split_once "=" tok = (k, Some v) /\ key_of tok = Some k /\
               parse_token float result tok = <[k := float v]> result) \/
  (key_of tok = None /\ parse_token float result tok = result).
Proof.
  destruct (split_once "=" tok) as [k [v|]] eqn:Hs.
  - left. exists k, v. split; [done|]. split.
    + unfold key_of. by rewrite Hs.
    + by apply parse_token_keyed.
  - right. split.
    + unfold key_of. by rewrite Hs.
    + unfold parse_token. rewrite Hs. by destruct (contains "=" tok).
Qed.

Lemma fold_parse_token_dom (tokens : list string)
    (result : gmap string (option pyfloat)) (key : string) :
  is_Some (fold_left (parse_token float) tokens result !! key) <->
  is_Some (result !! key) \/ exists tok, tok ∈ tokens /\ key_of tok = Some key.
Proof.
  revert result. induction tokens as [|t tokens IH]; intros result; simpl.
  - split; [auto|]. intros [?|(tok & Hin & _)]; [done|].
    by apply elem_of_nil in Hin.
  - rewrite IH. split.
    + intros [Hk|(tok & Hin & Hkey)].
      * destruct (parse_token_cases result t)
          as [(k & v & _ & Hkey & Ht)|(_ & Ht)]; rewrite Ht in Hk; [|auto].
        destruct (decide (k = key)) as [->|Hne].
        -- right. exists t. split; [apply list_elem_of_here | done].
        -- rewrite lookup_insert_ne in Hk by done. auto.
      * right. exists tok. split; [by apply list_elem_of_further | done].
    + intros [Hk|(tok & Hin & Hkey)].
      * left. by apply parse_token_keeps.
      * apply elem_of_cons in Hin as [->|Hin]; [|right; eauto].
        left. destruct (parse_token_cases result t)
          as [(k & v & _ & Hkey' & Ht)|(Hnone & _)]; [|congruence].
        rewrite Ht. assert (k = key) as -> by congruence.
        rewrite lookup_insert_eq. eauto.
Qed.

Lemma key_of_contains (tok key : string) :
  key_of tok = Some key -> exists v, split_once "=" tok = (key, Some v).
Proof.
  unfold key_of. destruct (split_once "=" tok) as [k [v|]]; [|done].
  intros [= ->]. eauto.
Qed.

Lemma parse_message_absent (message key : string) :
  (forall tok, tok ∈ re_split (strip message) -> key_of tok <> Some key) ->
  parse_message float message !! key = None.
Proof.
  intros Hno. unfold parse_message.
  destruct (contains "=" message); simpl; [|done].
  apply eq_None_not_Some. rewrite fold_parse_token_dom.
  intros [[? Hk]|(tok & Hin & Hkey)]; [done|]. by apply (Hno tok).
Qed.

(** X9. The parsed fields are keyed by exactly the keys of the tokens of
    shape [key=value]: a key is present if and only if some token of the
    message carries it (so a message without ["="] gives no field). *)
Theorem parse_message_keys (message key : string) :
  is_Some (parse_message float message !! key) <->
  exists tok, tok ∈ re_split (strip message) /\ key_of tok = Some key.
Proof.
  split.
  - unfold parse_message. destruct (contains "=" message); simpl.
    + intros Hk. apply fold_parse_token_dom in Hk as [[? Hk]|?]; done.
    + by intros [? ?].
  - intros (tok & Hin & Hkey).
    destruct (key_of_contains _ _ Hkey) as [v Hv].
    rewrite (parse_message_tokens float message tok key v) by done.
    apply fold_parse_token_dom. right. eauto.
Qed.

(** X10. The last token that carries a key decides its value, in the parsed
    fields and in the record: the float read from its text, or null. *)
Theorem parse_message_last_wins (data : groupdict) (pre post : list string)
    (tok key value_str : string) :
  re_split (strip (message data)) = pre ++ tok :: post ->
  split_once "=" tok = (key, Some value_str) ->
  (forall t, t ∈ post -> key_of t <> Some key) ->
  parse_message float (message data) !! key = Some (float value_str) /\
  make_record float data !! key = Some (float_cell (float value_str)).
Proof.
  intros Hsplit Htok Hlast.
  assert (parse_message float (message data) !! key = Some (float value_str))
    as Hv.
  { rewrite (parse_message_tokens float _ tok key value_str).
    - rewrite Hsplit. by apply fold_parse_token_last.
    - rewrite Hsplit. apply elem_of_middle.
    - done. }
  split; [done|]. by apply make_record_msg_field.
Qed.

(** X11. When no token of the message is keyed by the name of a base field,
    the record keeps the line's own time stamp, level, instrument id and
    message. *)
Theorem make_record_keeps_base_fields (data : groupdict) :
  (forall tok key, tok ∈ re_split (strip (message data)) ->
                   key ∈ base_fields -> key_of tok <> Some key) ->
  make_record float data !! "timestamp" = Some (CStr (timestamp data)) /\
  make_record float data !! "level" = Some (CStr (level data)) /\
  make_record float data !! "instrument_id" = Some (CStr (instrument_id data)) /\
  make_record float data !! "message" = Some (CStr (message data)).
Proof.
  intros Hno.
  assert (forall key, key ∈ base_fields ->
            make_record float data !! key
            = ({[ "timestamp" := CStr (timestamp data);
                  "level" := CStr (level data);
                  "instrument_id" := CStr (instrument_id data);
                  "message" := CStr (message data) ]} : gmap string cell) !! key)
    as Hbase.
  { intros key Hkey. unfold make_record. apply lookup_union_r.
    rewrite lookup_fmap, parse_message_absent; [done|].
    intros tok Hin. by apply Hno. }
  unfold base_fields in Hbase.
  repeat split; rewrite Hbase by set_solver; by simplify_map_eq.
Qed.

Lemma read_records_cases (path : list string) :
  (Forall (fun line => parse_line float line = None) path /\
   read_records float path = []) \/
  (Exists (fun line => is_Some (parse_line float line)) path /\
   read_records float path <> []).
Proof.
  induction path as [|line path IH]; simpl.
  - left. by split.
  - destruct (parse_line float line) as [r|] eqn:Hl.
    + right. split; [|done]. left. rewrite Hl. eauto.
    + destruct IH as [[Hall Hnil]|[Hex Hne]].
      * left. split; [by constructor | done].
      * right. split; [by right | done].
Qed.

(** X12. [load_log] fails exactly when no line of the file gives a record (an
    empty file included), and then with the error of an input without
    valid lines; as soon as one line is matched it returns a frame. *)
Theorem load_log_outcome (path : list string) :
  (Forall (fun line => parse_line float line = None) path /\
   load_log float to_datetime path
   = Raise (ValueError "No valid log lines parsed.")) \/
  (Exists (fun line => is_Some (parse_line float line)) path /\
   exists df, load_log float to_datetime path = Ok df).
Proof.
  unfold load_log.
  destruct (read_records_cases path) as [[Hall Hnil]|[Hex Hne]].
  - left. split; [done|]. by rewrite Hnil.
  - right. split; [done|].
    rewrite (of_records_not_empty _ "timestamp"); [eauto|].
    apply of_records_has_column; [done|].
    intros r Hr. apply (AnalyzerProps.read_records_base float path); [done|].
    unfold base_fields. set_solver.
Qed.

End Parser.


Lemma empty_false_rows (df : DataFrame) (name : string) :
  has_column df name = true -> (empty df = false <-> rows df <> []).
Proof.
  rewrite FrameProps.has_column_spec, FrameProps.empty_rows_columns.
  intros Hin. split; [by intros [? _] | intros ?; split; [done | set_solver]].
Qed.


(** What [LogTrend.plot_metric] prints is what the step returns with;
    nothing is printed on the way to the drawing calls. *)
Lemma plot_metric_step_printed (df : DataFrame) (metric : string) :
  has_column df "timestamp" = true ->
  plot_metric df metric
  = match plot_metric_step df metric with
    | Returns out => out
    | _ => []
    end.
Proof.
  intros Ht. unfold plot_metric, plot_metric_step. rewrite Ht. simpl.
  destruct (has_column df metric); simpl; [|done].
  by destruct (empty (dropna metric df)).
Qed.

(** X15. [plot_metric] returns early with its "not found" line exactly when
    the metric is no column, and with its "no valid values" line exactly
    when the metric is a column that is null in every row; in every other
    case it prints nothing and goes on to the drawing calls, with exactly
    the rows whose metric is not null. *)
Theorem plot_metric_step_outcome (df : DataFrame) (metric : string) :
  has_column df "timestamp" = true ->
  (has_column df metric = false /\
   plot_metric_step df metric
   = Returns [Text ("Metric '" ++ metric
                    ++ "' not found in parsed logs; skipping metric plot.")]) \/
  (has_column df metric = true /\
   (forall row, row ∈ rows df -> isna (get metric row) = true) /\
   plot_metric_step df metric
   = Returns [Text ("No valid values for metric '" ++ metric ++ "'.")]) \/
  (has_column df metric = true /\
   (exists row, row ∈ rows df /\ isna (get metric row) = false) /\
   exists data, plot_metric_step df metric = Draws data /\
                columns data = columns df /\
                forall row, row ∈ rows data <->
                            row ∈ rows df /\ isna (get metric row) = false).
Proof.
  intros Ht. unfold plot_metric_step. rewrite Ht.
  destruct (has_column df metric) eqn:Hcol; simpl; [|auto].
  right. destruct (empty (dropna metric df)) eqn:He.
  - left. split; [done|]. split; [|done]. intros row Hrow.
    destruct (isna (get metric row)) eqn:Hna; [done|]. exfalso.
    assert (empty (dropna metric df) = false) as Hf; [|congruence].
    apply (empty_false_rows _ metric); [done|]. simpl.
    intros Hnil.
    assert (row ∈ filter (fun row : gmap string cell =>
                            isna (get metric row) = false) (rows df)) as Hin
      by (by apply list_elem_of_filter).
    rewrite Hnil in Hin. by apply elem_of_nil in Hin.
  - right. split; [done|]. split.
    + apply (empty_false_rows _ metric) in He; [|done]. simpl in He.
      destruct (filter _ (rows df)) as [|row rest] eqn:Hf; [done|].
      assert (row ∈ filter (fun row : gmap string cell =>
                              isna (get metric row) = false) (rows df)) as Hin
        by (rewrite Hf; apply list_elem_of_here).
      apply list_elem_of_filter in Hin as [Hp Hin]. eauto.
    + eexists. split; [done|]. split; [done|]. intros row. simpl.
      rewrite list_elem_of_filter. tauto.
Qed.

Lemma parse_line_inverse_witness :
  exists data, well_formed data /\
               strip Samples.pressure_line = format_line data /\
               make_record py_float (Samples.groups_of "pressure_kpa=101.3")
               = make_record py_float data.
Proof.
  apply (parse_line_inverse py_float Samples.pressure_line). reflexivity.
Defined.

Lemma parse_message_last_wins_witness :
  parse_message py_float "a=x a=1" !! "a" = Some (py_float "1") /\
  make_record py_float (Samples.groups_of "a=x a=1") !! "a"
  = Some (float_cell (py_float "1")).
Proof.
  apply (parse_message_last_wins py_float (Samples.groups_of "a=x a=1")
           ["a=x"] [] "a=1" "a" "1"); [reflexivity | reflexivity |].
  intros t Ht. by apply elem_of_nil in Ht.
Defined.

Lemma make_record_keeps_base_fields_witness :
  let data := Samples.groups_of "pressure_kpa=101.3" in
  make_record py_float data !! "timestamp" = Some (CStr (timestamp data)) /\
  make_record py_float data !! "level" = Some (CStr (level data)) /\
  make_record py_float data !! "instrument_id" = Some (CStr (instrument_id data)) /\
  make_record py_float data !! "message" = Some (CStr (message data)).
Proof.
  apply make_record_keeps_base_fields.
  intros tok key Htok Hkey.
  change (tok ∈ ["pressure_kpa=101.3"]) in Htok.
  apply list_elem_of_singleton in Htok as ->.
  unfold base_fields in Hkey.
  repeat (apply elem_of_cons in Hkey as [->|Hkey]; [discriminate|]).
  by apply elem_of_nil in Hkey.
Defined.


Lemma plot_metric_step_outcome_witness :
  let df := of_records [make_record py_float
                          (Samples.groups_of "pressure_kpa=101.3")] in
  let metric := "pressure_kpa" in
  (has_column df metric = false /\
   plot_metric_step df metric
   = Returns [Text ("Metric '" ++ metric
                    ++ "' not found in parsed logs; skipping metric plot.")]) \/
  (has_column df metric = true /\
   (forall row, row ∈ rows df -> isna (get metric row) = true) /\
   plot_metric_step df metric
   = Returns [Text ("No valid values for metric '" ++ metric ++ "'.")]) \/
  (has_column df metric = true /\
   (exists row, row ∈ rows df /\ isna (get metric row) = false) /\
   exists data, plot_metric_step df metric = Draws data /\
                columns data = columns df /\
                forall row, row ∈ rows data <->
                            row ∈ rows df /\ isna (get metric row) = false).
Proof. apply plot_metric_step_outcome. reflexivity. Defined.

End LogTrendExtra.

Module LoaderExtra.
Import Frame FrameProps Loaded.
Local Open Scope list_scope.

Section Loaders.
Variable float : string -> option pyfloat.
Variable to_datetime : list cell -> list (option Z).

Lemma normalize_timestamped (df : DataFrame) :
  timestamped_from (rows df) (normalize_timestamp to_datetime df).
Proof.
  split; simpl.
  - etrans; [apply length_filter|]. rewrite length_zip_with. lia.
  - intros row [Hna Hin]%list_elem_of_filter.
    apply elem_of_zip_with in Hin as (r & t & -> & Hr & _).
    unfold get in Hna. rewrite lookup_insert_eq in Hna. simpl in Hna.
    destruct t as [t|]; [|done].
    exists r, t. split; [done|]. split; [apply lookup_insert_eq|].
    intros name Hname. by apply lookup_insert_ne.
Qed.

(** X16. Each loader returns rows that are input records with their time stamp
    turned into a time: every returned row has a time at [timestamp], its
    other fields are untouched, and no row is added. *)
Theorem loaders_timestamp_rows :
  (forall csv df, CsvTrend.load_csv to_datetime csv = Ok df ->
                  timestamped_from (rows csv) df) /\
  (forall json df, JsonTrend.load_json to_datetime json = Ok df ->
                   timestamped_from json df) /\
  (forall path df, LogTrend.load_log float to_datetime path = Ok df ->
                   timestamped_from (LogTrend.read_records float path) df).
Proof.
  split; [|split].
  - intros csv df. unfold CsvTrend.load_csv.
    destruct (has_column csv "timestamp"); [|done]. simpl.
    intros [= <-]. apply normalize_timestamped.
  - intros json df. unfold JsonTrend.load_json.
    destruct (has_column (of_records json) "timestamp"); [|done]. simpl.
    intros [= <-]. apply (normalize_timestamped (of_records json)).
  - intros path df. unfold LogTrend.load_log.
    destruct (empty (of_records _)); [done|].
    intros [= <-].
    apply (normalize_timestamped (of_records (LogTrend.read_records float path))).
Qed.

(** X17. [load_json] fails exactly when no object of the array has a
    [timestamp] key (an empty array included); one object with the key is
    enough for the load to return a frame. *)
Theorem load_json_outcome (json : list (gmap string cell)) :
  ((forall obj, obj ∈ json -> obj !! "timestamp" = None) /\
   JsonTrend.load_json to_datetime json
   = Raise (ValueError "JSON must contain a 'timestamp' field")) \/
  ((exists obj, obj ∈ json /\ is_Some (obj !! "timestamp")) /\
   exists df, JsonTrend.load_json to_datetime json = Ok df).
Proof.
  unfold JsonTrend.load_json.
  destruct (has_column (of_records json) "timestamp") eqn:Hcol; simpl.
  - right. split; [|eauto].
    apply has_column_spec in Hcol. simpl in Hcol.
    apply elem_of_union_list in Hcol as (X & HX & Hin).
    apply list_elem_of_fmap in HX as (obj & -> & Hobj).
    exists obj. split; [done|]. by apply elem_of_dom.
  - left. split; [|done]. intros obj Hobj.
    apply eq_None_not_Some. intros Hsome.
    assert (has_column (of_records json) "timestamp" = true) as Ht;
      [|congruence].
    apply has_column_spec. simpl. apply elem_of_union_list.
    exists (dom obj). split; [by apply list_elem_of_fmap_2|].
    by apply elem_of_dom.
Qed.

(** X13. A frame returned by [load_log] has the four base columns
    [timestamp], [level], [instrument_id] and [message], and every row of
    it has an entry at each of them (a time at [timestamp]; elsewhere
    the entry is null when a token of the message has overwritten it):
    the look-ups of [main] by [instrument_id] and [level] never meet a
    missing column. *)
Theorem load_log_base_columns (path : list string) (df : DataFrame) :
  LogTrend.load_log float to_datetime path = Ok df ->
  forall name, name ∈ LogTrend.base_fields ->
    has_column df name = true /\
    forall row, row ∈ rows df ->
      is_Some (row !! name) /\
      (name = "timestamp" -> exists t, row !! name = Some (CTime t)).
Proof.
  intros Hload name Hname. split.
  - by apply (AnalyzerProps.load_log_columns float to_datetime path).
  - intros row Hrow. unfold LogTrend.load_log in Hload.
    destruct (empty (of_records _)); [done|]. injection Hload as <-.
    destruct (normalize_timestamped
                (of_records (LogTrend.read_records float path)))
      as [_ Hrows].
    destruct (Hrows row Hrow) as (r & t & Hr & Htime & Hother).
    destruct (decide (name = "timestamp")) as [->|Hne].
    + rewrite Htime. split; eauto.
    + split; [|done]. rewrite Hother by done.
      by apply (AnalyzerProps.read_records_base float path).
Qed.

End Loaders.

Import Samples.

Lemma loaders_timestamp_rows_witness :
  timestamped_from (rows sample_csv)
    (normalize_timestamp sample_to_datetime sample_csv) /\
  timestamped_from sample_json
    (normalize_timestamp sample_to_datetime (of_records sample_json)) /\
  timestamped_from (LogTrend.read_records py_float [pressure_line])
    (normalize_timestamp sample_to_datetime
       (of_records (LogTrend.read_records py_float [pressure_line]))).
Proof.
  destruct (loaders_timestamp_rows py_float sample_to_datetime)
    as (Hcsv & Hjson & Hlog).
  split; [|split].
  - by apply Hcsv.
  - by apply Hjson.
  - by apply Hlog.
Defined.

Lemma load_log_base_columns_witness :
  let df := normalize_timestamp sample_to_datetime
              (of_records (LogTrend.read_records py_float [pressure_line])) in
  has_column df "instrument_id" = true /\
  exists row, rows df !! 0%nat = Some row /\
              row !! "instrument_id" = Some (CStr "IVD-001").
Proof.
  intros df.
  destruct (load_log_base_columns py_float sample_to_datetime [pressure_line] df
              eq_refl "instrument_id") as [Hcol Hrows].
  - unfold LogTrend.base_fields. set_solver.
  - split; [exact Hcol|]. eexists. split; reflexivity.
Defined.

End LoaderExtra.

Module FailuresExtra.
Import Frame Failures.
Local Open Scope list_scope.
Local Open Scope nat_scope.














Import Samples.



(** On the example file of the script: one day, one failure. *)
Example daily_failures_sample :
  daily_failures (normalize_timestamp sample_to_datetime sample_csv)
  = Some [(20120%Z, 1)].
Proof. reflexivity. Qed.

End FailuresExtra.

Module RollingExtra.
Import Rolling.
Local Open Scope list_scope.
Local Open Scope Qc_scope.

Lemma elem_of_window_at (window : nat) (values : list (option Qc)) (i : nat)
    (x : option Qc) :
  x ∈ window_at window values i <->
  exists j, (i + 1 - window <= j <= i)%nat /\ values !! j = Some x.
Proof.
  unfold window_at. rewrite elem_of_take. split.
  - intros (k & Hk & Hlt). rewrite lookup_drop in Hk.
    exists (i + 1 - window + k)%nat. split; [lia | done].
  - intros (j & Hj & Hx). exists (j - (i + 1 - window))%nat.
    rewrite lookup_drop. split; [|lia].
    by replace (i + 1 - window + (j - (i + 1 - window)))%nat with j by lia.
Qed.

Lemma observations_nil (w : list (option Qc)) :
  observations w = [] <-> forall v, Some v ∉ w.
Proof.
  unfold observations. split.
  - intros Hnil v Hv.
    assert (v ∈ omap id w) as Hin by (apply list_elem_of_omap; eauto).
    rewrite Hnil in Hin. by apply elem_of_nil in Hin.
  - intros Hno. destruct (omap id w) as [|v l] eqn:Ho; [done|].
    assert (v ∈ omap id w) as Hin by (rewrite Ho; apply list_elem_of_here).
    apply list_elem_of_omap in Hin as (x & Hx & Hid). simpl in Hid. subst x.
    by apply Hno in Hx.
Qed.

Lemma mean_at_least_one_None (obs : list Qc) :
  mean_at_least 1 obs = None <-> obs = [].
Proof. unfold mean_at_least. by destruct obs. Qed.

Lemma value_rolling_mean_lookup (values : list (option Qc)) (i : nat) :
  (i < length values)%nat ->
  value_rolling_mean values !! i
  = Some (mean_at_least 1 (observations (window_at 5 values i))).
Proof.
  intros Hi. unfold value_rolling_mean, rolling_mean.
  change (map ?f ?l) with (f <$> l).
  by rewrite list_lookup_fmap, lookup_seq_lt.
Qed.

(** X20. The rolling mean has one value per row, and with [min_periods=1] it
    is [NaN] at a row only when that row and the four before it all are:
    a row that has a value always has a rolling mean. *)
Theorem value_rolling_mean_defined (values : list (option Qc)) :
  length (value_rolling_mean values) = length values /\
  forall i, (i < length values)%nat ->
    (value_rolling_mean values !! i = Some None <->
     forall j v, (i + 1 - 5 <= j <= i)%nat -> values !! j <> Some (Some v)).
Proof.
  split.
  - unfold value_rolling_mean, rolling_mean. by rewrite length_map, length_seq.
  - intros i Hi. rewrite value_rolling_mean_lookup by done.
    split.
    + intros [= Hnone] j v Hj Hv.
      apply mean_at_least_one_None in Hnone.
      apply (proj1 (observations_nil _)) with (v := v) in Hnone.
      apply Hnone, elem_of_window_at. eauto.
    + intros Hno. f_equal. apply mean_at_least_one_None.
      apply (proj2 (observations_nil _)).
      intros v (j & Hj & Hv)%elem_of_window_at. by apply (Hno j v).
Qed.

Lemma value_rolling_mean_defined_witness :
  value_rolling_mean [Some 1; None; None; None; None; None] !! 5%nat = Some None <->
  forall j v, (5 + 1 - 5 <= j <= 5)%nat ->
              [Some 1; None; None; None; None; None] !! j <> Some (Some v).
Proof.
  apply (value_rolling_mean_defined [Some 1; None; None; None; None; None]).
  simpl. lia.
Defined.

End RollingExtra.

Module RunExtra.
Import PyStr PyStrProps Frame FrameProps.
Local Open Scope list_scope.

Lemma split_once_before (sep : ascii) (s k : string) (v : option string) :
  split_once sep s = (k, v) ->
  contains sep k = false /\ forall d, contains d k = true -> contains d s = true.
Proof.
  revert k v. induction s as [|c s IH]; intros k v; simpl.
  - by intros [= <- <-].
  - destruct (Ascii.eqb_spec c sep) as [->|Hne].
    + by intros [= <- <-].
    + destruct (split_once sep s) as [k' v'] eqn:Hs. intros [= <- <-].
      destruct (IH k' v' eq_refl) as [Hsep Hsub]. simpl. split.
      * rewrite Hsep, orb_false_r. apply Ascii.eqb_neq. congruence.
      * intros d Hd. apply orb_true_iff in Hd as [->|Hd]; [done|].
        rewrite (Hsub d Hd). apply orb_true_r.
Qed.

Lemma re_split_no_sep (s tok : string) (d : ascii) :
  tok ∈ re_split s -> is_sep d = true -> contains d tok = false.
Proof.
  revert tok. induction s as [|c s IH]; intros tok; simpl.
  - by intros ->%list_elem_of_singleton.
  - destruct (is_sep c) eqn:Hc.
    + destruct (starts_with_sep s); [apply IH|].
      intros [->|Hin]%elem_of_cons; [done | by apply IH].
    + destruct (re_split s) as [|piece others] eqn:Hs.
      * intros ->%list_elem_of_singleton Hd. simpl.
        rewrite orb_false_r. apply Ascii.eqb_neq. intros ->. congruence.
      * intros [->|Hin]%elem_of_cons Hd.
        -- simpl. rewrite (IH piece) by (done || apply list_elem_of_here).
           rewrite orb_false_r. apply Ascii.eqb_neq. intros ->. congruence.
        -- apply IH; [by apply list_elem_of_further | done].
Qed.

Section Runs.
Variable float : string -> option pyfloat.
Variable to_datetime : list cell -> list (option Z).

(** X23. A key of the parsed fields never holds an equals sign, a space
    or a comma: it is the text before the first ["="] of a piece between
    runs of spaces and commas. *)
Theorem parse_message_key_chars (message key : string) :
  is_Some (LogTrend.parse_message float message !! key) ->
  contains "=" key = false /\ contains " " key = false /\
  contains "," key = false.
Proof.
  unfold LogTrend.parse_message. destruct (contains "=" message); simpl;
    [|by intros [? ?]].
  intros Hk. apply LogTrendExtra.fold_parse_token_dom in Hk
    as [[? Hk]|(tok & Hin & Hkey)]; [done|].
  apply LogTrendExtra.key_of_contains in Hkey as [v Hv].
  apply split_once_before in Hv as [Heq Hsub].
  split; [done|].
  split.
  - destruct (contains " " key) eqn:Hc; [|done].
    apply Hsub in Hc. by rewrite (re_split_no_sep _ _ _ Hin) in Hc.
  - destruct (contains "," key) eqn:Hc; [|done].
    apply Hsub in Hc. by rewrite (re_split_no_sep _ _ _ Hin) in Hc.
Qed.

Lemma normalize_keeps_timed_row (df : DataFrame) (i : nat)
    (row : gmap string cell) (t : Z) :
  rows df !! i = Some row ->
  to_datetime (column df "timestamp") !! i = Some (Some t) ->
  <["timestamp" := CTime t]> row ∈ rows (normalize_timestamp to_datetime df) /\
  empty (normalize_timestamp to_datetime df) = false.
Proof.
  intros Hrow Ht.
  assert (<["timestamp" := CTime t]> row
          ∈ rows (normalize_timestamp to_datetime df)) as Hin.
  { simpl. apply list_elem_of_filter. split.
    - unfold get. by rewrite lookup_insert_eq.
    - apply list_elem_of_lookup. exists i.
      rewrite lookup_zip_with, Hrow. simpl. by rewrite Ht. }
  split; [exact Hin|].
  apply empty_rows_columns. split.
  - intros Hnil. rewrite Hnil in Hin. by apply elem_of_nil in Hin.
  - simpl. intros Hempty.
    assert ("timestamp" ∈ columns df ∪ ({["timestamp"]} : gset string)) as Hc
      by (apply elem_of_union; right; by apply elem_of_singleton).
    rewrite Hempty in Hc. by apply not_elem_of_empty in Hc.
Qed.

(** X24. One dated record is enough for a loader to return data: when the
    input has a [timestamp] column and the time stamp of some record reads
    as a date-time, the loader returns a frame that is not empty and holds
    that record with its time. *)
Theorem one_timed_row_loads :
  (forall (csv : DataFrame) i row t,
     has_column csv "timestamp" = true ->
     rows csv !! i = Some row ->
     to_datetime (column csv "timestamp") !! i = Some (Some t) ->
     exists df, CsvTrend.load_csv to_datetime csv = Ok df /\
                <["timestamp" := CTime t]> row ∈ rows df /\
                empty df = false) /\
  (forall (json : list (gmap string cell)) i obj t,
     has_column (of_records json) "timestamp" = true ->
     json !! i = Some obj ->
     to_datetime (column (of_records json) "timestamp") !! i = Some (Some t) ->
     exists df, JsonTrend.load_json to_datetime json = Ok df /\
                <["timestamp" := CTime t]> obj ∈ rows df /\
                empty df = false) /\
  (forall (path : list string) i record t,
     LogTrend.read_records float path !! i = Some record ->
     to_datetime (column (of_records (LogTrend.read_records float path))
                    "timestamp") !! i = Some (Some t) ->
     exists df, LogTrend.load_log float to_datetime path = Ok df /\
                <["timestamp" := CTime t]> record ∈ rows df /\
                empty df = false).
Proof.
  split; [|split].
  - intros csv i row t Hcol Hrow Ht.
    unfold CsvTrend.load_csv. rewrite Hcol. simpl.
    eexists. split; [done|].
    by apply (normalize_keeps_timed_row csv i row t).
  - intros json i obj t Hcol Hobj Ht.
    unfold JsonTrend.load_json. rewrite Hcol. simpl.
    eexists. split; [done|].
    by apply (normalize_keeps_timed_row (of_records json) i obj t).
  - intros path i record t Hrec Ht.
    set (df0 := of_records (LogTrend.read_records float path)) in *.
    unfold LogTrend.load_log. fold df0.
    assert (empty df0 = false) as ->.
    { apply (of_records_not_empty _ "timestamp").
      apply of_records_has_column.
      - intros Hn. by rewrite Hn in Hrec.
      - intros r Hr. apply (AnalyzerProps.read_records_base float path); [done|].
        unfold LogTrend.base_fields. set_solver. }
    eexists. split; [done|].
    by apply (normalize_keeps_timed_row df0 i record t).
Qed.

End Runs.

Import Samples.

Lemma parse_message_key_chars_witness :
  contains "=" "pressure_kpa" = false /\ contains " " "pressure_kpa" = false /\
  contains "," "pressure_kpa" = false.
Proof.
  apply (parse_message_key_chars py_float "pressure_kpa=101.3 retry=3").
  eexists. reflexivity.
Defined.

Lemma one_timed_row_loads_witness :
  (exists df, CsvTrend.load_csv sample_to_datetime sample_csv = Ok df /\
              empty df = false) /\
  (exists df, JsonTrend.load_json sample_to_datetime sample_json = Ok df /\
              empty df = false) /\
  (exists df, LogTrend.load_log py_float sample_to_datetime [pressure_line]
              = Ok df /\ empty df = false).
Proof.
  destruct (one_timed_row_loads py_float sample_to_datetime)
    as (Hcsv & Hjson & Hlog).
  split; [|split].
  - edestruct (Hcsv sample_csv 0%nat) as (df & Hl & _ & He);
      [reflexivity..|]. eauto.
  - edestruct (Hjson sample_json 0%nat) as (df & Hl & _ & He);
      [reflexivity..|]. eauto.
  - edestruct (Hlog [pressure_line] 0%nat) as (df & Hl & _ & He);
      [reflexivity..|]. eauto.
Defined.

End RunExtra.
